(** * openage asset export: terrain metadata writer and texture construction

    A shallow embedding of
      - [openage/convert/entity_object/export/formats/terrain_metadata.py]
        (class [TerrainMetadata]) and
      - [openage/convert/entity_object/export/texture.py]
        (classes [TextureImage] and [Texture]),
    together with the properties of the export stage that hold of them.

    Python objects are modelled by records, Python exceptions by an error
    result, attribute mutation by explicit state passing, and the Python
    built-ins the code relies on ([str] of an [int], [float] of an [int],
    [repr] of a [float], truthiness, insertion-ordered [dict]) by executable
    definitions. *)

From Stdlib Require Import ZArith List String Ascii Bool Lia DecimalString.
From Stdlib Require Import SpecFloat.
From stdpp Require Import base option gmap.

Import ListNotations.
Local Open Scope string_scope.
Local Open Scope Z_scope.

(** ** Python exceptions and results *)

Module Py.

(** The exception classes that the modelled code can raise, each with the
    payload that identifies the raise site. *)
Inductive exn : Type :=
| TypeError (msg : string)
| KeyError (key : Z)
| IndexError (msg : string)
| ValueError (msg : string)
| OverflowError (msg : string)
| Exception (msg : string).

(** [type(e).__name__] *)
Definition exn_class (e : exn) : string :=
  match e with
  | TypeError _ => "TypeError"
  | KeyError _ => "KeyError"
  | IndexError _ => "IndexError"
  | ValueError _ => "ValueError"
  | OverflowError _ => "OverflowError"
  | Exception _ => "Exception"
  end.

Inductive result (A : Type) : Type :=
| Ok (a : A)
| Raise (e : exn).
Arguments Ok {A} a.
Arguments Raise {A} e.

Definition bind {A B} (r : result A) (k : A -> result B) : result B :=
  match r with
  | Ok a => k a
  | Raise e => Raise e
  end.

(** [raises r cls]: evaluating [r] raises an exception of class [cls]. *)
Definition raises {A} (r : result A) (cls : string) : Prop :=
  exists e, r = Raise e /\ exn_class e = cls.

(** The line feed character, written [\n] in the Python source. *)
Definition LF : string := String (ascii_of_nat 10) EmptyString.

(** *** [str] of an [int]

    [str_int z] is the decimal text of [z]. CPython converts an integer to
    text only when it has no more decimal digits than
    [sys.get_int_max_str_digits()], 4300 unless configured otherwise, and
    raises [ValueError] beyond; [str_int] is the conversion within this
    limit, and [within_str_digits] says that an integer is within it. A
    statement that a text is returned carries this condition for every
    integer written. *)

Definition str_int (z : Z) : string := NilZero.string_of_int (Z.to_int z).

Definition max_str_digits : nat := 4300.

Definition within_str_digits (z : Z) : Prop :=
  Nat.leb (String.length (str_int (Z.abs z))) max_str_digits = true.

(** *** The [float] type

    A Python [float] is an IEEE 754 binary64 value. *)

Definition float : Type := spec_float.

Definition prec : Z := 53.
Definition emax : Z := 1024.

(** [float(n)] for an [int]: the nearest binary64 value, ties to even;
    [OverflowError] when the integer is beyond the finite range. *)
Definition float_of_int (n : Z) : result float :=
  match binary_normalize prec emax n 0 false with
  | S754_infinity _ => Raise (OverflowError "int too large to convert to float")
  | f => Ok f
  end.

(** Truthiness of a [float]: false exactly for the two zeros. *)
Definition float_truthy (f : float) : bool :=
  match f with
  | S754_zero _ => false
  | _ => true
  end.

(** *** [repr] of a [float]

    [str(x)], [repr(x)] and the f-string field [{x}] of a float [x] agree:
    the shortest decimal digit string that reads back as [x] under
    round-to-nearest-even (the closest to [x] among the shortest), laid out
    in positional notation when the decimal point position [decpt]
    satisfies [-4 < decpt <= 16] and in exponent notation otherwise. *)

Definition ndigits (n : Z) : Z := Z.of_nat (String.length (str_int n)).

(** Comparison of [d * 10^k] with the rational [N / D] ([D > 0]). *)
Definition cmp_dec (d k N D : Z) : comparison :=
  if 0 <=? k then (d * 10 ^ k * D ?= N) else (d * D ?= N * 10 ^ (- k)).

(** [floor (N / D / 10^k)] *)
Definition floor_dec (k N D : Z) : Z :=
  if 0 <=? k then N / (D * 10 ^ k) else (N * 10 ^ (- k)) / D.

(** The decimal exponent [E] of [N / D]: [10^E <= N / D < 10^(E+1)]. *)
Definition dec_exponent (N D : Z) : Z :=
  let a := ndigits N - ndigits D in
  match cmp_dec 1 a N D with
  | Gt => a - 1
  | _ => a
  end.

(** The rounding interval of the positive binary64 value [m * 2^e], as
    three numerators [(lo, v, hi)] over a common denominator: every real
    strictly between [lo] and [hi] reads back as [m * 2^e], and so do the
    end points when [m] is even. *)
Definition rounding_interval (m : positive) (e : Z) : Z * Z * Z * Z :=
  let v := 4 * Z.pos m in
  let hi := v + 2 in
  let lo := if (Z.pos m =? 2 ^ (prec - 1)) && (3 - emax - prec <? e)
            then v - 1 else v - 2 in
  if 0 <=? e - 2
  then (lo * 2 ^ (e - 2), v * 2 ^ (e - 2), hi * 2 ^ (e - 2), 1)
  else (lo, v, hi, 2 ^ (2 - e)).

Definition reads_back (m : positive) (lo hi D d k : Z) : bool :=
  match cmp_dec d k lo D, cmp_dec d k hi D with
  | Gt, Lt => true
  | Eq, (Lt | Eq) | Gt, Eq => Z.even (Z.pos m)
  | _, _ => false
  end.

(** Search for the shortest digit string, trying [n], [n+1], ...
    significant digits. *)
Fixpoint shortest_from (fuel : nat) (m : positive) (lo v hi D E n : Z)
  : Z * Z :=
  let k := E - n + 1 in
  let c := floor_dec k v D in
  match fuel with
  | O => (c, k)
  | S fuel' =>
      match reads_back m lo hi D c k, reads_back m lo hi D (c + 1) k with
      | true, true =>
          match cmp_dec (2 * c + 1) k (2 * v) D with
          | Gt => (c, k)
          | Lt => (c + 1, k)
          | Eq => if Z.even c then (c, k) else (c + 1, k)
          end
      | true, false => (c, k)
      | false, true => (c + 1, k)
      | false, false => shortest_from fuel' m lo v hi D E (n + 1)
      end
  end.

Fixpoint strip_zeros (fuel : nat) (d k : Z) : Z * Z :=
  match fuel with
  | O => (d, k)
  | S fuel' =>
      if d mod 10 =? 0 then strip_zeros fuel' (d / 10) (k + 1) else (d, k)
  end.

(** The digit string and the position [decpt] of the decimal point of
    [m * 2^e]: the value is [0.DIGITS * 10^decpt]. *)
Definition shortest_digits (m : positive) (e : Z) : string * Z :=
  let '(lo, v, hi, D) := rounding_interval m e in
  let '(d, k) := shortest_from 17 m lo v hi D (dec_exponent v D) 1 in
  let '(d, k) := strip_zeros (Z.to_nat (ndigits d)) d k in
  (str_int d, k + ndigits d).

Definition zeros (n : Z) : string :=
  string_of_list_ascii (repeat "0"%char (Z.to_nat n)).

Definition str_slice (a b : Z) (s : string) : string :=
  substring (Z.to_nat a) (Z.to_nat (b - a)) s.

Definition format_fixed (ds : string) (decpt : Z) : string :=
  let n := Z.of_nat (String.length ds) in
  if decpt <=? 0 then "0." ++ zeros (- decpt) ++ ds
  else if n <=? decpt then ds ++ zeros (decpt - n) ++ ".0"
  else str_slice 0 decpt ds ++ "." ++ str_slice decpt n ds.

Definition format_exp (ds : string) (decpt : Z) : string :=
  let n := Z.of_nat (String.length ds) in
  let e10 := decpt - 1 in
  let mant := if n <=? 1 then ds
              else str_slice 0 1 ds ++ "." ++ str_slice 1 n ds in
  let ex := str_int (Z.abs e10) in
  mant ++ "e" ++ (if e10 <? 0 then "-" else "+")
       ++ (if Z.abs e10 <? 10 then "0" ++ ex else ex).

Definition str_float (f : float) : string :=
  match f with
  | S754_zero s => if s then "-0.0" else "0.0"
  | S754_infinity s => if s then "-inf" else "inf"
  | S754_nan => "nan"
  | S754_finite s m e =>
      let '(ds, decpt) := shortest_digits m e in
      (if s then "-" else "") ++
      (if (decpt <=? -4) || (16 <? decpt)
       then format_exp ds decpt else format_fixed ds decpt)
  end.

(** A float literal [m * 2^e], rounded as the Python parser would. *)
Definition float_lit (m e : Z) : float := binary_normalize prec emax m e false.

End Py.

Import Py.

(** ** Insertion-ordered dictionaries with [int] keys

    A Python [dict] iterates in the order in which its keys were first
    inserted; assigning to a key that is present replaces the value and
    leaves the key where it is. *)

Module PyDict.

Definition dict (V : Type) : Type := list (Z * V).

Definition empty {V} : dict V := [].

(** [d[k] = v] *)
Fixpoint setitem {V} (k : Z) (v : V) (d : dict V) : dict V :=
  match d with
  | [] => [(k, v)]
  | (k', v') :: d' =>
      if k' =? k then (k', v) :: d' else (k', v') :: setitem k v d'
  end.

(** [d.get(k)] *)
Fixpoint get {V} (k : Z) (d : dict V) : option V :=
  match d with
  | [] => None
  | (k', v') :: d' => if k' =? k then Some v' else get k d'
  end.

(** [list(d.keys())] and [list(d.values())] *)
Definition keys {V} (d : dict V) : list Z := map fst d.
Definition values {V} (d : dict V) : list V := map snd d.

End PyDict.

(** ** terrain_metadata.py *)

Definition FORMAT_VERSION : string := "1".

(** [class LayerMode(Enum)] *)
Inductive LayerMode : Type :=
| OFF    (* layer is not animated *)
| LOOP.  (* animation loops indefinitely *)

(** [LayerMode.value] *)
Definition LayerMode_value (m : LayerMode) : string :=
  match m with
  | OFF => "off"
  | LOOP => "loop"
  end.

(** An argument annotated [float] or [typing.Union[int, float]]: Python
    accepts an [int] wherever a [float] is announced. *)
Inductive number : Type :=
| Int (z : Z)
| Float (f : float).

(** [float(x)] *)
Definition to_float (x : number) : result float :=
  match x with
  | Int z => float_of_int z
  | Float f => Ok f
  end.

(** [str(x)], also the f-string field [{x}] *)
Definition str_number (x : number) : string :=
  match x with
  | Int z => str_int z
  | Float f => str_float f
  end.

(** Truthiness, as tested by [if x:]: a number is false when it is zero, a
    member of a plain [Enum] is always true, and [None] is false. *)
Definition int_truthy (z : Z) : bool := negb (z =? 0).

Definition number_truthy (x : number) : bool :=
  match x with
  | Int z => int_truthy z
  | Float f => float_truthy f
  end.

Definition mode_truthy (m : LayerMode) : bool := true.

Definition truthy {A} (value_truthy : A -> bool) (x : option A) : bool :=
  match x with
  | None => false
  | Some a => value_truthy a
  end.

(** The dictionaries with fixed string keys that the class stores are
    records; the field order is the insertion order of the keys. *)

Module Image.
Record t : Type := { image_id : Z; filename : string }.
End Image.

Module Blendtable.
Record t : Type := { table_id : Z; filename : string }.
End Blendtable.

Module Layer.
Record t : Type :=
  { layer_id : Z;
    mode : option LayerMode;
    position : option Z;
    time_per_frame : option number;
    replay_delay : option number }.
End Layer.

Module Frame.
Record t : Type :=
  { frame_idx : Z; layer_id : Z; img_id : Z;
    xpos : Z; ypos : Z; xsize : Z; ysize : Z;
    priority : Z; blend_mode : Z }.

(** [frame.values()] *)
Definition values (f : t) : list Z :=
  [frame_idx f; layer_id f; img_id f; xpos f; ypos f;
   xsize f; ysize f; priority f; blend_mode f].
End Frame.

(** [sep.join(parts)] *)
Definition join (sep : string) (parts : list string) : string :=
  String.concat sep parts.

(** [for x in xs: body], threading the local variable the body assigns. *)
Definition for_in {A S} (xs : list A) (init : S) (body : S -> A -> S) : S :=
  fold_left body xs init.

Module TerrainMetadata.

(** The attributes of an instance; [targetdir] and [filename] are set by
    the base class [DataDefinition]. *)
Record t : Type :=
  { targetdir : string;
    filename : string;
    scalefactor : float;
    image_files : PyDict.dict Image.t;
    blendtable : option Blendtable.t;
    layers : PyDict.dict Layer.t;
    frames : list Frame.t }.

(** A method body: it reads and writes the attributes of [self] and either
    returns a value or raises. *)
Definition method (A : Type) : Type := t -> result A * t.

#[export] Instance method_ret : MRet method :=
  fun A a self => (Ok a, self).

#[export] Instance method_bind : MBind method :=
  fun A B k c self =>
    match c self with
    | (Ok a, self') => k a self'
    | (Raise e, self') => (Raise e, self')
    end.

(** Reading an attribute of [self]. *)
Definition getattr {A} (field : t -> A) : method A :=
  fun self => (Ok (field self), self).

(** Assigning to an attribute of [self]. *)
Definition set_scalefactor_attr (v : float) : method unit :=
  fun self =>
    (Ok tt, {| targetdir := targetdir self; filename := filename self;
               scalefactor := v; image_files := image_files self;
               blendtable := blendtable self; layers := layers self;
               frames := frames self |}).

Definition set_image_files_attr (v : PyDict.dict Image.t) : method unit :=
  fun self =>
    (Ok tt, {| targetdir := targetdir self; filename := filename self;
               scalefactor := scalefactor self; image_files := v;
               blendtable := blendtable self; layers := layers self;
               frames := frames self |}).

Definition set_blendtable_attr (v : option Blendtable.t) : method unit :=
  fun self =>
    (Ok tt, {| targetdir := targetdir self; filename := filename self;
               scalefactor := scalefactor self;
               image_files := image_files self;
               blendtable := v; layers := layers self;
               frames := frames self |}).

Definition set_layers_attr (v : PyDict.dict Layer.t) : method unit :=
  fun self =>
    (Ok tt, {| targetdir := targetdir self; filename := filename self;
               scalefactor := scalefactor self;
               image_files := image_files self;
               blendtable := blendtable self; layers := v;
               frames := frames self |}).

Definition set_frames_attr (v : list Frame.t) : method unit :=
  fun self =>
    (Ok tt, {| targetdir := targetdir self; filename := filename self;
               scalefactor := scalefactor self;
               image_files := image_files self;
               blendtable := blendtable self; layers := layers self;
               frames := v |}).

(** A computation that does not touch [self]. *)
Definition lift {A} (r : result A) : method A := fun self => (r, self).

(** Subscripting the [blendtable] attribute: [None] is not subscriptable. *)
Definition subscript (b : option Blendtable.t) : result Blendtable.t :=
  match b with
  | Some d => Ok d
  | None => Raise (TypeError "'NoneType' object is not subscriptable")
  end.

(** [__init__] *)
Definition init (targetdir filename : string) : t :=
  {| targetdir := targetdir; filename := filename;
     scalefactor := float_lit 1 0;
     image_files := PyDict.empty;
     blendtable := None;
     layers := PyDict.empty;
     frames := [] |}.

Definition add_image (img_id : Z) (filename : string) : method unit :=
  image_files ← getattr image_files;
  set_image_files_attr
    (PyDict.setitem img_id
       {| Image.image_id := img_id; Image.filename := filename |}
       image_files).

Definition add_layer (layer_id : Z) (mode : option LayerMode)
    (position : option Z) (time_per_frame replay_delay : option number)
  : method unit :=
  layers ← getattr layers;
  set_layers_attr
    (PyDict.setitem layer_id
       {| Layer.layer_id := layer_id; Layer.mode := mode;
          Layer.position := position;
          Layer.time_per_frame := time_per_frame;
          Layer.replay_delay := replay_delay |}
       layers).

Definition add_frame (frame_idx layer_id img_id xpos ypos xsize ysize
                      priority blend_mode : Z) : method unit :=
  frames ← getattr frames;
  set_frames_attr
    (frames ++
     [ {| Frame.frame_idx := frame_idx; Frame.layer_id := layer_id;
          Frame.img_id := img_id; Frame.xpos := xpos; Frame.ypos := ypos;
          Frame.xsize := xsize; Frame.ysize := ysize;
          Frame.priority := priority;
          Frame.blend_mode := blend_mode |} ])%list.

Definition set_blendtable (table_id : Z) (filename : string) : method unit :=
  set_blendtable_attr
    (Some {| Blendtable.table_id := table_id;
             Blendtable.filename := filename |}).

Definition set_scalefactor (factor : number) : method unit :=
  f ← lift (to_float factor);
  set_scalefactor_attr f.

(** The body of the loop over [self.layers.values()]. An attribute that is
    [None] fails the [if] like any other falsy value, so its formatting is
    reached only for a present value. *)
Definition dump_layer (output_str : string) (layer : Layer.t) : string :=
  let output_str := output_str ++ "layer " ++ str_int (Layer.layer_id layer) in
  let output_str :=
    match Layer.mode layer with
    | Some m =>
        if mode_truthy m
        then output_str ++ " mode=" ++ LayerMode_value m else output_str
    | None => output_str
    end in
  let output_str :=
    match Layer.position layer with
    | Some p =>
        if int_truthy p
        then output_str ++ " position=" ++ str_int p else output_str
    | None => output_str
    end in
  let output_str :=
    match Layer.time_per_frame layer with
    | Some x =>
        if number_truthy x
        then output_str ++ " time_per_frame=" ++ str_number x else output_str
    | None => output_str
    end in
  let output_str :=
    match Layer.replay_delay layer with
    | Some x =>
        if number_truthy x
        then output_str ++ " replay_delay=" ++ str_number x else output_str
    | None => output_str
    end in
  output_str ++ LF.

Definition dump : method string :=
  let output_str := "" in
  (* header *)
  let output_str :=
    output_str ++ "# openage terrain definition file" ++ LF ++ LF in
  (* version *)
  let output_str := output_str ++ "version " ++ FORMAT_VERSION ++ LF ++ LF in
  (* image files *)
  image_files ← getattr image_files;
  let output_str :=
    for_in (PyDict.values image_files) output_str
      (fun output_str image =>
         output_str ++ "imagefile " ++ str_int (Image.image_id image)
                    ++ " " ++ Image.filename image ++ LF) in
  let output_str := output_str ++ LF in
  (* blendtable reference *)
  blendtable ← getattr blendtable;
  table ← lift (subscript blendtable);
  let output_str :=
    output_str ++ "blendtable " ++ str_int (Blendtable.table_id table)
               ++ " " ++ Blendtable.filename table ++ LF ++ LF in
  (* scale factor *)
  scalefactor ← getattr scalefactor;
  let output_str :=
    output_str ++ "scalefactor " ++ str_float scalefactor ++ LF ++ LF in
  (* layer definitions *)
  layers ← getattr layers;
  let output_str := for_in (PyDict.values layers) output_str dump_layer in
  let output_str := output_str ++ LF in
  (* frame definitions *)
  frames ← getattr frames;
  let output_str :=
    for_in frames output_str
      (fun output_str frame =>
         output_str ++ "frame "
                    ++ join " " (map str_int (Frame.values frame)) ++ LF) in
  mret output_str.

(** A call of one of the methods that fill the object, and a sequence of
    such calls made one after the other on the same object; an exception
    ends the sequence. *)
Inductive call : Type :=
| Add_image (img_id : Z) (filename : string)
| Add_layer (layer_id : Z) (mode : option LayerMode) (position : option Z)
            (time_per_frame replay_delay : option number)
| Add_frame (frame_idx layer_id img_id xpos ypos xsize ysize
             priority blend_mode : Z)
| Set_blendtable (table_id : Z) (filename : string)
| Set_scalefactor (factor : number).

Definition do_call (c : call) : method unit :=
  match c with
  | Add_image i f => add_image i f
  | Add_layer i m p t r => add_layer i m p t r
  | Add_frame a b c d e f g h i => add_frame a b c d e f g h i
  | Set_blendtable i f => set_blendtable i f
  | Set_scalefactor x => set_scalefactor x
  end.

Fixpoint do_calls (cs : list call) : method unit :=
  match cs with
  | [] => mret tt
  | c :: cs' => do_call c;; do_calls cs'
  end.


End TerrainMetadata.

(** ** texture.py *)

Module Texture.

(** What the module receives from its collaborators: the classes of numpy
    arrays, PIL images and color tables with the operations used on them
    ([numpy.ndarray.shape], [PIL.Image.Image.mode],
    [PIL.Image.Image.convert], [numpy.array], [ColorTable.array]), the
    constant [TILE_HALFSIZE["y"]] of [hardcoded.terrain_tile_size], and the
    classes of the values that the attributes [best_compr],
    [best_packer_hints] and [image_metadata] hold once a texture has been
    saved. *)
Class Collaborators : Type :=
  { ndarray : Type;
    PIL_Image : Type;
    ColorTable : Type;
    palette_array : Type;
    compr_params : Type;
    packer_hints : Type;
    metadata_entry : Type;
    game_version : Type;
    shape : ndarray -> list Z;
    Image_mode : PIL_Image -> string;
    Image_convert : PIL_Image -> string -> PIL_Image;
    numpy_array : PIL_Image -> ndarray;
    array : ColorTable -> palette_array;
    TILE_HALFSIZE_y : Z }.

Section Classes.

Context {collaborators : Collaborators}.

(** What [get_picture_data] may hand over: a PIL image, a numpy array, or
    an object of another type (given by the text of its [type]). *)
Inductive picture : Type :=
| PIL (im : PIL_Image)
| Ndarray (a : ndarray)
| Object (type_repr : string).

(** [t[i]] for a tuple [t] and [i >= 0] *)
Definition tuple_item (t : list Z) (i : nat) : result Z :=
  match nth_error t i with
  | Some x => Ok x
  | None => Raise (IndexError "tuple index out of range")
  end.

(** [class TextureImage] *)
Record TextureImage : Type :=
  { width : Z;
    height : Z;
    hotspot : Z * Z;
    data : ndarray }.

(** [TextureImage.__init__]. A PIL image is converted to RGBA if it is in
    another mode and then to an array, so it passes the array test that
    follows; the call to the logger [spam] has no effect on the object. *)
Definition TextureImage_of_array (picture_data : ndarray)
    (hotspot : option (Z * Z)) : result TextureImage :=
  Py.bind (tuple_item (shape picture_data) 1) (fun width =>
  Py.bind (tuple_item (shape picture_data) 0) (fun height =>
  let hotspot :=
    match hotspot with
    | None => (0, 0)
    | Some h => h
    end in
  Ok {| width := width; height := height;
        hotspot := hotspot; data := picture_data |})).

Definition TextureImage_init (picture_data : picture)
    (hotspot : option (Z * Z)) : result TextureImage :=
  match picture_data with
  | PIL picture_data =>
      let picture_data :=
        if negb (String.eqb (Image_mode picture_data) "RGBA")
        then Image_convert picture_data "RGBA" else picture_data in
      TextureImage_of_array (numpy_array picture_data) hotspot
  | Ndarray picture_data => TextureImage_of_array picture_data hotspot
  | Object ty =>
      Raise (ValueError ("Texture image must be created from PIL Image "
                         ++ "or numpy array, not '" ++ ty ++ "'"))
  end.

(** [TextureImage.get_data] *)
Definition get_data (self : TextureImage) : ndarray := data self.

(** Modelled from the spec: the frame classes [SLPFrame], [SMPLayer] and
    [SMXLayer] are not part of the sources; a frame is what section 6 of
    the specification says of [SourceFrame]: it reports an optional palette
    number, produces its picture from a palette (or from none), and has a
    hotspot. *)
Record SourceFrame : Type :=
  { get_palette_number : option Z;
    get_picture_data : option palette_array -> picture;
    get_hotspot : Z * Z }.

(** Modelled from the spec: a tile of [BlendingMode.alphamasks], whose
    class is not part of the sources; it produces its picture without a
    palette. *)
Record AlphaMask : Type :=
  { mask_get_picture_data : picture }.

(** Modelled from the spec: [InterfaceCutter] is not part of the sources;
    a cutter turns one image into a sequence of images. *)
Record Cutter : Type :=
  { cut : TextureImage -> list TextureImage }.

(** The argument [input_data], by its class. *)
Inductive input_data : Type :=
| SLP (main_frames : list SourceFrame)
| SMP (main_frames : list SourceFrame)
| SMX (main_frames : list SourceFrame)
| BlendingMode (alphamasks : list AlphaMask)
| Other (type_repr : string).

(** [class Texture] *)
Record t : Type :=
  { best_compr : option compr_params;
    best_packer_hints : option packer_hints;
    image_data : option TextureImage;
    image_metadata : option (list metadata_entry);
    frames : list TextureImage }.

Definition image_format : string := "png".
Definition name_struct : string := "subtexture".
Definition name_struct_file : string := "texture".
Definition struct_description : string :=
  "one sprite, as part of a texture atlas." ++ LF ++
  LF ++
  "this struct stores information about positions and sizes" ++ LF ++
  "of sprites included in the 'big texture'.".

(** [palettes[palette_number]] on the argument [palettes], which is [None]
    unless the caller supplies a dictionary. *)
Definition palettes_item (palettes : option (gmap Z ColorTable))
    (palette_number : Z) : result ColorTable :=
  match palettes with
  | None => Raise (TypeError "'NoneType' object is not subscriptable")
  | Some d =>
      match d !! palette_number with
      | Some ct => Ok ct
      | None => Raise (KeyError palette_number)
      end
  end.

(** [Texture._to_subtextures]. The argument [custom_cutter] is
    [Some cutter] for a cutter object that passes the test
    [if custom_cutter:], and [None] when the test fails. *)
Definition _to_subtextures (frame : SourceFrame)
    (main_palette : option palette_array) (custom_cutter : option Cutter)
  : result (list TextureImage) :=
  Py.bind (TextureImage_init (get_picture_data frame main_palette)
                             (Some (get_hotspot frame)))
    (fun subtex =>
       match custom_cutter with
       | Some cutter =>
           (* this may cut the texture into some parts *)
           Ok (cut cutter subtex)
       | None => Ok [subtex]
       end).

(** The palette chosen for a frame in the loop of [Texture.__init__]:
    [None] for a frame without palette number, [palettes[n].array] for the
    palette number [n]. *)
Definition main_palette_of (palettes : option (gmap Z ColorTable))
    (frame : SourceFrame) : result (option palette_array) :=
  (* Palette can be different for every frame *)
  let palette_number := get_palette_number frame in
  match palette_number with
  | None => Ok None
  | Some n =>
      Py.bind (palettes_item palettes n) (fun ct => Ok (Some (array ct)))
  end.

(** The loop over [input_data.main_frames] in [Texture.__init__], started
    with [self.frames] equal to [frames]. *)
Fixpoint main_frames_loop (palettes : option (gmap Z ColorTable))
    (custom_cutter : option Cutter) (main_frames : list SourceFrame)
    (frames : list TextureImage) : result (list TextureImage) :=
  match main_frames with
  | [] => Ok frames
  | frame :: rest =>
      Py.bind (main_palette_of palettes frame) (fun main_palette =>
      Py.bind (_to_subtextures frame main_palette custom_cutter)
        (fun subtexs =>
      let frames :=
        for_in subtexs frames
          (fun frames subtex => (frames ++ [subtex])%list) in
      main_frames_loop palettes custom_cutter rest frames))
  end.

(** The list comprehension over [input_data.alphamasks]. *)
Fixpoint alphamasks_images (alphamasks : list AlphaMask)
  : result (list TextureImage) :=
  match alphamasks with
  | [] => Ok []
  | tile :: rest =>
      Py.bind
        (* the hotspot is in the west corner of a tile. *)
        (TextureImage_init (mask_get_picture_data tile)
                           (Some (0, TILE_HALFSIZE_y)))
        (fun img =>
      Py.bind (alphamasks_images rest) (fun imgs => Ok (img :: imgs)))
  end.

Definition new (frames : list TextureImage) : t :=
  {| best_compr := None; best_packer_hints := None;
     image_data := None; image_metadata := None; frames := frames |}.

(** [Texture.__init__] *)
Definition init (input : input_data)
    (palettes : option (gmap Z ColorTable)) (custom_cutter : option Cutter)
  : result t :=
  match input with
  | SLP main_frames | SMP main_frames | SMX main_frames =>
      Py.bind (main_frames_loop palettes custom_cutter main_frames [])
        (fun frames => Ok (new frames))
  | BlendingMode alphamasks =>
      Py.bind (alphamasks_images alphamasks) (fun frames => Ok (new frames))
  | Other ty =>
      Raise (Exception ("cannot create Texture "
                        ++ "from unknown source type: " ++ ty))
  end.

(** [Texture.get_metadata] and [Texture.get_cache_params] *)
Definition get_metadata (self : t) : option (list metadata_entry) :=
  image_metadata self.

Definition get_cache_params (self : t)
  : option packer_hints * option compr_params :=
  (best_packer_hints self, best_compr self).

(** [Texture.get_data_format_members]: the members of the struct, each a
    tuple of an export flag, the member name, a storage type (absent here)
    and the data type. *)
Definition get_data_format_members (gv : game_version)
  : list (bool * string * option string * string) :=
  let data_format :=
    [ (true, "x", None, "int32_t");
      (true, "y", None, "int32_t");
      (true, "w", None, "int32_t");
      (true, "h", None, "int32_t");
      (true, "cx", None, "int32_t");
      (true, "cy", None, "int32_t") ] in
  data_format.

End Classes.

End Texture.

(** * Vocabulary of the properties *)

(** ** Strings *)

(** The concatenation of a list of strings. *)
Definition cat (parts : list string) : string :=
  fold_right String.append "" parts.

(** [needle in s] *)
Fixpoint contains (needle s : string) : bool :=
  String.prefix needle s ||
  match s with
  | EmptyString => false
  | String _ s' => contains needle s'
  end.

(** [s] starts with the character [c]. *)
Definition starts_with (c : ascii) (s : string) : bool :=
  match s with
  | EmptyString => false
  | String x _ => Ascii.eqb x c
  end.

(** Somewhere in [s] the character [c1] is immediately followed by [c2]. *)
Fixpoint adjacent (c1 c2 : ascii) (s : string) : bool :=
  match s with
  | EmptyString => false
  | String x s' => Ascii.eqb x c1 && starts_with c2 s' || adjacent c1 c2 s'
  end.

Fixpoint all_chars (P : ascii -> bool) (s : string) : bool :=
  match s with
  | EmptyString => true
  | String x s' => P x && all_chars P s'
  end.

(** [c1 c2] neither occurs in [s] nor can arise where [s] is appended to
    another string. *)
Definition clean (c1 c2 : ascii) (s : string) : Prop :=
  adjacent c1 c2 s = false /\ starts_with c2 s = false.

(** The characters of a formatted number. *)
Definition numeric_char (c : ascii) : bool :=
  contains (String c EmptyString) "0123456789-+.einfa".

(** The quotient of two integers as a float, [float(n) / float(d)]. *)
Definition float_div (n d : Z) : float :=
  SFdiv prec emax (float_lit n 0) (float_lit d 0).

(** ** The format of the terrain definition file *)

Module TerrainText.
Import TerrainMetadata.

Definition header : string :=
  "# openage terrain definition file" ++ LF ++ LF ++
  "version " ++ FORMAT_VERSION ++ LF ++ LF.

Definition image_line (image : Image.t) : string :=
  "imagefile " ++ str_int (Image.image_id image) ++ " "
               ++ Image.filename image ++ LF.

Definition blendtable_line (table : Blendtable.t) : string :=
  "blendtable " ++ str_int (Blendtable.table_id table) ++ " "
                ++ Blendtable.filename table ++ LF.

Definition scalefactor_line (f : float) : string :=
  "scalefactor " ++ str_float f ++ LF.

(** [str(x)] of an optional value *)
Definition str_optional {A} (str : A -> string) (x : option A) : string :=
  match x with
  | Some a => str a
  | None => "None"
  end.

(** An optional attribute of a layer line: [ name=value] when the stored
    value is truthy, nothing otherwise. *)
Definition clause (name : string) (is_truthy : bool) (value : string)
  : string :=
  if is_truthy then " " ++ name ++ "=" ++ value else "".

Definition mode_clause (layer : Layer.t) : string :=
  clause "mode" (truthy mode_truthy (Layer.mode layer))
         (str_optional LayerMode_value (Layer.mode layer)).

Definition position_clause (layer : Layer.t) : string :=
  clause "position" (truthy int_truthy (Layer.position layer))
         (str_optional str_int (Layer.position layer)).

Definition time_per_frame_clause (layer : Layer.t) : string :=
  clause "time_per_frame" (truthy number_truthy (Layer.time_per_frame layer))
         (str_optional str_number (Layer.time_per_frame layer)).

Definition replay_delay_clause (layer : Layer.t) : string :=
  clause "replay_delay" (truthy number_truthy (Layer.replay_delay layer))
         (str_optional str_number (Layer.replay_delay layer)).

Definition layer_line (layer : Layer.t) : string :=
  "layer " ++ str_int (Layer.layer_id layer)
  ++ mode_clause layer
  ++ position_clause layer
  ++ time_per_frame_clause layer
  ++ replay_delay_clause layer
  ++ LF.

Definition frame_line (frame : Frame.t) : string :=
  "frame " ++ join " " (map str_int (Frame.values frame)) ++ LF.

(** The whole file, for the dictionaries of images and layers, the blend
    table, the scale factor and the frames. *)
Definition text_of (images : PyDict.dict Image.t) (table : Blendtable.t)
    (scale : float) (layers : PyDict.dict Layer.t) (frames : list Frame.t)
  : string :=
  header
  ++ cat (map image_line (PyDict.values images)) ++ LF
  ++ blendtable_line table ++ LF
  ++ scalefactor_line scale ++ LF
  ++ cat (map layer_line (PyDict.values layers)) ++ LF
  ++ cat (map frame_line frames).

Definition text (self : t) (table : Blendtable.t) : string :=
  text_of (image_files self) table (scalefactor self)
          (layers self) (frames self).

(** The integers that [dump] turns into text: the image identifiers, the
    identifier of the blend table, of each layer its identifier, its
    position and its durations given as integers, and the nine values of
    each frame. *)
Definition image_ints (self : t) : list Z :=
  map Image.image_id (PyDict.values (image_files self)).

Definition layer_ints (layer : Layer.t) : list Z :=
  (Layer.layer_id layer
   :: match Layer.position layer with
      | Some p => [p]
      | None => []
      end
   ++ match Layer.time_per_frame layer with
      | Some (Int z) => [z]
      | _ => []
      end
   ++ match Layer.replay_delay layer with
      | Some (Int z) => [z]
      | _ => []
      end)%list.

Definition written_ints (self : t) : list Z :=
  (image_ints self
   ++ match blendtable self with
      | Some table => [Blendtable.table_id table]
      | None => []
      end
   ++ flat_map layer_ints (PyDict.values (layers self))
   ++ flat_map Frame.values (frames self))%list.

(** Every integer that [dump] writes is within the digit limit of [str];
    and the same for the image identifiers, which are the integers
    written before the blend table is read. *)
Definition ints_within_str_digits (self : t) : Prop :=
  Forall within_str_digits (written_ints self).

Definition image_ids_within_str_digits (self : t) : Prop :=
  Forall within_str_digits (image_ints self).

End TerrainText.

(** ** Call histories of a terrain metadata object *)

Module History.
Import TerrainMetadata.

(** The calls of the round-trip example; [0.5] is the float [1 * 2^-1]. *)
Definition example_calls : list call :=
  [ Add_image 0 "0.png";
    Set_blendtable 1 "blend.png";
    Set_scalefactor (Int 2);
    Add_layer 0 (Some LOOP) None (Some (Float (float_lit 1 (-1)))) None;
    Add_frame 0 0 0 0 0 32 32 0 0 ].

Definition example_text : string :=
  "# openage terrain definition file" ++ LF ++
  LF ++
  "version 1" ++ LF ++
  LF ++
  "imagefile 0 0.png" ++ LF ++
  LF ++
  "blendtable 1 blend.png" ++ LF ++
  LF ++
  "scalefactor 2.0" ++ LF ++
  LF ++
  "layer 0 mode=loop time_per_frame=0.5" ++ LF ++
  LF ++
  "frame 0 0 0 0 0 32 32 0 0" ++ LF.

(** A history that adds the image [0] and the layer [5] twice. *)
Definition readding_calls : list call :=
  [ Add_image 0 "a.png";
    Add_image 1 "b.png";
    Add_image 0 "c.png";
    Add_layer 5 (Some OFF) None None None;
    Add_layer 2 None None None None;
    Add_layer 5 (Some LOOP) (Some 3) None None;
    Set_blendtable 1 "blend.png" ].

Definition is_set_blendtable (c : call) : bool :=
  match c with
  | Set_blendtable _ _ => true
  | _ => false
  end.

(** The records supplied by the calls of [add_image], and by those of
    [add_layer], each under its identifier, in call order. *)
Definition images_added (cs : list call) : list (Z * Image.t) :=
  flat_map (fun c =>
    match c with
    | Add_image i f =>
        [(i, {| Image.image_id := i; Image.filename := f |})]
    | _ => []
    end) cs.

Definition layers_added (cs : list call) : list (Z * Layer.t) :=
  flat_map (fun c =>
    match c with
    | Add_layer i m p t r =>
        [(i, {| Layer.layer_id := i; Layer.mode := m; Layer.position := p;
                Layer.time_per_frame := t; Layer.replay_delay := r |})]
    | _ => []
    end) cs.

(** The distinct identifiers of a history, each at the place of its first
    occurrence. *)
Fixpoint distinct (ids : list Z) : list Z :=
  match ids with
  | [] => []
  | i :: rest => i :: List.filter (fun j => negb (j =? i)) (distinct rest)
  end.

(** The record most recently supplied under the identifier [i]. *)
Fixpoint latest {V} (i : Z) (added : list (Z * V)) : option V :=
  match added with
  | [] => None
  | (j, v) :: rest =>
      match latest i rest with
      | Some v' => Some v'
      | None => if j =? i then Some v else None
      end
  end.

(** The record kept for the identifier [i]: the most recent one. *)
Definition kept {V} (added : list (Z * V)) (i : Z) : list (Z * V) :=
  match latest i added with
  | Some v => [(i, v)]
  | None => []
  end.

(** One record per distinct identifier: the most recent one, at the place
    of the identifier's first insertion. *)
Definition surviving {V} (added : list (Z * V)) : PyDict.dict V :=
  flat_map (kept added) (distinct (map fst added)).

(** The dictionary [d] after the assignments [d[i] = v] of a history. *)
Definition inserted {V} (added : list (Z * V)) (d : PyDict.dict V)
  : PyDict.dict V :=
  fold_left (fun d kv => PyDict.setitem (fst kv) (snd kv) d) added d.

(** [i in ids] *)
Definition mem (i : Z) (ids : list Z) : bool := existsb (Z.eqb i) ids.

End History.

(** ** Vocabulary of the texture properties *)

Module TextureSpec.
Import Texture.

Section Classes.
Context {collaborators : Collaborators}.

(** The frames of a frame collection, for the three classes that have
    [main_frames]. *)
Definition main_frames_of (input : input_data) : option (list SourceFrame) :=
  match input with
  | SLP fs | SMP fs | SMX fs => Some fs
  | BlendingMode _ | Other _ => None
  end.


(** The raster of a picture: the array itself, or the array of the PIL
    image brought to RGBA. *)
Definition raster (p : picture) : option ndarray :=
  match p with
  | Ndarray a => Some a
  | PIL im =>
      Some (numpy_array (if String.eqb (Image_mode im) "RGBA"
                         then im else Image_convert im "RGBA"))
  | Object _ => None
  end.

(** [main_palette] is the palette of [frame]: none for a frame without
    palette number, and for the palette number [n] the array of the color
    table that the dictionary [palettes] holds under [n]. *)
Definition palette_of_frame (palettes : option (gmap Z ColorTable))
    (frame : SourceFrame) (main_palette : option palette_array) : Prop :=
  match get_palette_number frame with
  | None => main_palette = None
  | Some n =>
      exists d ct,
        palettes = Some d /\ d !! n = Some ct
        /\ main_palette = Some (array ct)
  end.

(** [img] is the subtexture of [frame]: it carries the raster that the
    frame produces from its palette, and the frame's hotspot. *)
Definition subtexture_of (palettes : option (gmap Z ColorTable))
    (frame : SourceFrame) (img : TextureImage) : Prop :=
  exists main_palette,
    palette_of_frame palettes frame main_palette
    /\ raster (get_picture_data frame main_palette) = Some (data img)
    /\ hotspot img = get_hotspot frame.

End Classes.

(** *** Sample collaborators

    Arrays are lists of pixel rows, a PIL image is a mode with its pixel
    rows, and a color table is its list of colors. *)

Definition sample : Collaborators :=
  {| ndarray := list (list Z);
     PIL_Image := string * list (list Z);
     ColorTable := list Z;
     palette_array := list Z;
     compr_params := unit;
     packer_hints := unit;
     metadata_entry := unit;
     game_version := unit;
     shape := fun a => [Z.of_nat (length a); Z.of_nat (length (hd [] a)); 4];
     Image_mode := fst;
     Image_convert := fun im mode => (mode, snd im);
     numpy_array := snd;
     array := fun ct => ct;
     TILE_HALFSIZE_y := 24 |}.

(** A frame without palette number, giving a 2x3 array. *)
Definition plain_frame : @SourceFrame sample :=
  {| get_palette_number := None;
     get_picture_data := fun _ => @Ndarray sample [[1; 2; 3]; [4; 5; 6]];
     get_hotspot := (1, 2) |}.

(** A frame without palette number, giving a 1x2 PIL image in mode [P]. *)
Definition pil_frame : @SourceFrame sample :=
  {| get_palette_number := None;
     get_picture_data := fun _ => @PIL sample ("P", [[7; 8]]);
     get_hotspot := (0, 1) |}.

(** A frame that asks for the palette [5]. *)
Definition palette_frame : @SourceFrame sample :=
  {| get_palette_number := Some 5;
     get_picture_data := fun _ => @Ndarray sample [[9]];
     get_hotspot := (3, 4) |}.

(** A palette-indexed frame: it asks for the palette [5] and produces the
    one-row picture whose pixels are the colors of the palette it is
    given. *)
Definition indexed_picture (main_palette : option (list Z))
  : list (list Z) :=
  [ match main_palette with
    | Some colors => colors
    | None => []
    end ].

Definition indexed_frame : @SourceFrame sample :=
  {| get_palette_number := Some 5;
     get_picture_data := fun main_palette : option (@palette_array sample) =>
       @Ndarray sample (indexed_picture main_palette);
     get_hotspot := (6, 7) |}.

(** Palettes with the color tables [5] and [6]. *)
Definition sample_palettes : gmap Z (@ColorTable sample) :=
  <[5 := [10; 20; 30]]> (<[6 := [40; 50]]> ∅).

(** A cutter that returns no piece. *)
Definition empty_cutter : @Cutter sample := {| cut := fun _ => [] |}.

End TextureSpec.

(** ** Vocabulary of the further properties *)

(** The number of occurrences of the character [c] in [s]. *)
Fixpoint count_char (c : ascii) (s : string) : nat :=
  match s with
  | EmptyString => 0%nat
  | String x s' =>
      ((if Ascii.eqb x c then 1 else 0) + count_char c s')%nat
  end.

(** The line feed as a character. *)
Definition LF_char : ascii := ascii_of_nat 10.

Module HistoryMore.
Import TerrainMetadata History.

(** The records supplied by the calls of [add_frame], in call order. *)
Definition frames_added (cs : list call) : list Frame.t :=
  flat_map (fun c =>
    match c with
    | Add_frame a b c d e f g h i =>
        [ {| Frame.frame_idx := a; Frame.layer_id := b; Frame.img_id := c;
             Frame.xpos := d; Frame.ypos := e; Frame.xsize := f;
             Frame.ysize := g; Frame.priority := h;
             Frame.blend_mode := i |} ]
    | _ => []
    end) cs.

(** The blend table of the last call of [set_blendtable], starting from
    [b]. *)
Definition last_blendtable (cs : list call) (b : option Blendtable.t)
  : option Blendtable.t :=
  fold_left (fun b c =>
    match c with
    | Set_blendtable i f =>
        Some {| Blendtable.table_id := i; Blendtable.filename := f |}
    | _ => b
    end) cs b.

(** The scale factor of the last call of [set_scalefactor] whose argument
    converts to a float, starting from [s]. *)
Definition last_scalefactor (cs : list call) (s : float) : float :=
  fold_left (fun s c =>
    match c with
    | Set_scalefactor x =>
        match to_float x with
        | Ok f => f
        | Raise _ => s
        end
    | _ => s
    end) cs s.

(** An optional attribute with a falsy value replaced by [None]. *)
Definition drop_falsy {A} (value_truthy : A -> bool) (x : option A)
  : option A :=
  if truthy value_truthy x then x else None.

(** A layer with its falsy attributes replaced by [None]. *)
Definition drop_falsy_attributes (layer : Layer.t) : Layer.t :=
  {| Layer.layer_id := Layer.layer_id layer;
     Layer.mode := drop_falsy mode_truthy (Layer.mode layer);
     Layer.position := drop_falsy int_truthy (Layer.position layer);
     Layer.time_per_frame :=
       drop_falsy number_truthy (Layer.time_per_frame layer);
     Layer.replay_delay :=
       drop_falsy number_truthy (Layer.replay_delay layer) |}.


Definition is_add_frame (c : call) : bool :=
  match c with
  | Add_frame _ _ _ _ _ _ _ _ _ => true
  | _ => false
  end.

(** No file name of the object contains a line feed. *)
Definition filenames_on_one_line (self : t) : Prop :=
  Forall (fun image => count_char LF_char (Image.filename image) = 0%nat)
         (PyDict.values (image_files self))
  /\ forall table, blendtable self = Some table ->
       count_char LF_char (Blendtable.filename table) = 0%nat.

End HistoryMore.

Module TextureMore.
Import Texture TextureSpec.

Section Classes.
Context {collaborators : Collaborators}.

(** [img] is the image of the alpha mask [tile]: it carries the tile's
    raster, and the hotspot in the west corner of a tile. *)
Definition mask_image_of (tile : AlphaMask) (img : TextureImage) : Prop :=
  raster (mask_get_picture_data tile) = Some (data img)
  /\ hotspot img = (0, TILE_HALFSIZE_y).

End Classes.

(** A cutter that returns the image twice. *)
Definition doubling_cutter : @Cutter sample :=
  {| cut := fun subtex => [subtex; subtex] |}.

(** An alpha mask given as a 1x1 array. *)
Definition sample_mask : @AlphaMask sample :=
  {| mask_get_picture_data := @Ndarray sample [[1]] |}.

(** A frame whose picture is an object that is neither image nor array. *)
Definition broken_frame : @SourceFrame sample :=
  {| get_palette_number := None;
     get_picture_data := fun _ => @Object sample "<class 'str'>";
     get_hotspot := (0, 0) |}.

End TextureMore.
(** * Properties *)

(** ** Strings *)

Section Strings.

Lemma append_cons (c : ascii) (s t : string) :
  String c s ++ t = String c (s ++ t).
Proof. reflexivity. Qed.

Lemma append_nil_r (s : string) : s ++ "" = s.
Proof.
  induction s as [|c s IH]; [reflexivity|].
  now rewrite append_cons, IH.
Qed.

Lemma append_assoc (a b c : string) : (a ++ b) ++ c = a ++ b ++ c.
Proof.
  induction a as [|x a IH]; [reflexivity|].
  now rewrite !append_cons, IH.
Qed.

Lemma cat_app (xs ys : list string) : cat (xs ++ ys) = cat xs ++ cat ys.
Proof.
  induction xs as [|x xs IH]; simpl; [reflexivity|].
  now rewrite IH, append_assoc.
Qed.

(** A loop whose body appends one piece per element appends the
    concatenation of the pieces. *)
Lemma for_in_append {A} (piece : A -> string) (xs : list A) (out : string) :
  for_in xs out (fun out x => out ++ piece x) = out ++ cat (map piece xs).
Proof.
  unfold for_in. revert out.
  induction xs as [|x xs IH]; intros out; simpl.
  - now rewrite append_nil_r.
  - now rewrite IH, append_assoc.
Qed.

Lemma for_in_ext {A S} (f g : S -> A -> S) (xs : list A) (s : S) :
  (forall s x, f s x = g s x) -> for_in xs s f = for_in xs s g.
Proof.
  intros H. unfold for_in. revert s.
  induction xs as [|x xs IH]; intros s; simpl; [reflexivity|].
  now rewrite H, IH.
Qed.

(** A loop that appends each element to a list appends them all. *)
Lemma for_in_snoc {A} (xs acc : list A) :
  for_in xs acc (fun acc x => (acc ++ [x])%list) = (acc ++ xs)%list.
Proof.
  unfold for_in. revert acc.
  induction xs as [|x xs IH]; intros acc; simpl.
  - now rewrite app_nil_r.
  - now rewrite IH, <- app_assoc.
Qed.

(** *** Occurrences *)

Lemma prefix_append (n s : string) : String.prefix n (n ++ s) = true.
Proof.
  induction n as [|c n IH]; [now destruct s|].
  rewrite append_cons. simpl. destruct (ascii_dec c c); [exact IH|easy].
Qed.

Lemma contains_unfold (n s : string) :
  contains n s =
  String.prefix n s ||
  match s with
  | EmptyString => false
  | String _ s' => contains n s'
  end.
Proof. destruct s; reflexivity. Qed.

Lemma contains_prefix (n s : string) : contains n (n ++ s) = true.
Proof. now rewrite contains_unfold, prefix_append. Qed.

Lemma contains_append_r (n a b : string) :
  contains n b = true -> contains n (a ++ b) = true.
Proof.
  intros H. induction a as [|c a IH]; [exact H|].
  rewrite append_cons. simpl. rewrite IH. apply orb_true_r.
Qed.

Lemma prefix_adjacent (c1 c2 : ascii) (n s : string) :
  String.prefix (String c1 (String c2 n)) s = true -> adjacent c1 c2 s = true.
Proof.
  destruct s as [|x [|y s]]; simpl; try discriminate.
  - destruct (ascii_dec c1 x); discriminate.
  - destruct (ascii_dec c1 x) as [->|]; [|discriminate].
    destruct (ascii_dec c2 y) as [->|]; [|discriminate].
    intros _. now rewrite !Ascii.eqb_refl.
Qed.

Lemma contains_adjacent (c1 c2 : ascii) (n s : string) :
  contains (String c1 (String c2 n)) s = true -> adjacent c1 c2 s = true.
Proof.
  induction s as [|x s IH]; intros H.
  - simpl in H. discriminate.
  - cbn [contains] in H. apply orb_true_iff in H as [H|H].
    + now apply prefix_adjacent in H.
    + cbn [adjacent]. rewrite (IH H). apply orb_true_r.
Qed.

Lemma adjacent_append (c1 c2 : ascii) (a b : string) :
  adjacent c1 c2 (a ++ b) = true ->
  adjacent c1 c2 a = true \/ starts_with c2 b = true
  \/ adjacent c1 c2 b = true.
Proof.
  induction a as [|x a IH]; intros H; [now right; right|].
  rewrite append_cons in H. cbn [adjacent] in H |- *.
  apply orb_true_iff in H as [H|H].
  - apply andb_true_iff in H as [Hx Hs].
    destruct a as [|y a]; [now right; left|].
    left. rewrite Hx. rewrite append_cons in Hs. cbn [starts_with] in Hs |- *.
    now rewrite Hs.
  - destruct (IH H) as [Ha|Hb]; [|now right].
    left. rewrite Ha. apply orb_true_r.
Qed.

Lemma clean_append (c1 c2 : ascii) (a b : string) :
  clean c1 c2 a -> clean c1 c2 b -> clean c1 c2 (a ++ b).
Proof.
  intros [Ha Sa] [Hb Sb]. split.
  - destruct (adjacent c1 c2 (a ++ b)) eqn:E; [|reflexivity].
    apply adjacent_append in E as [E|[E|E]]; congruence.
  - destruct a as [|x a]; [exact Sb|exact Sa].
Qed.

Lemma clean_all_chars (P : ascii -> bool) (c1 c2 : ascii) (s : string) :
  P c2 = false -> all_chars P s = true -> clean c1 c2 s.
Proof.
  intros HP. induction s as [|x s IH]; intros H; [now split|].
  cbn [all_chars] in H. apply andb_true_iff in H as [Hx Hs].
  destruct (IH Hs) as [IH1 IH2].
  assert (Hne : Ascii.eqb x c2 = false).
  { destruct (Ascii.eqb_spec x c2) as [->|]; congruence. }
  split; cbn [adjacent starts_with]; [|exact Hne].
  rewrite IH1. destruct s as [|y s]; cbn [starts_with] in *.
  - now rewrite andb_false_r.
  - now rewrite IH2, andb_false_r.
Qed.

Lemma all_chars_append (P : ascii -> bool) (a b : string) :
  all_chars P a = true -> all_chars P b = true ->
  all_chars P (a ++ b) = true.
Proof.
  intros Ha Hb. induction a as [|x a IH]; [exact Hb|].
  rewrite append_cons. cbn [all_chars] in *.
  apply andb_true_iff in Ha as [Hx Ha]. now rewrite Hx, IH.
Qed.

Lemma all_chars_substring (P : ascii -> bool) (s : string) (n m : nat) :
  all_chars P s = true -> all_chars P (substring n m s) = true.
Proof.
  revert n m. induction s as [|x s IH]; intros n m H.
  - now destruct n, m.
  - cbn [all_chars] in H. apply andb_true_iff in H as [Hx Hs].
    destruct n as [|n]; [destruct m as [|m]|]; cbn [substring all_chars].
    + reflexivity.
    + now rewrite Hx, IH.
    + now apply IH.
Qed.

End Strings.

(** ** Formatted numbers *)

Section Numbers.

(** The formatting of floats on values of each layout: positional with
    and without fraction, shortest digits, both exponent forms, the largest
    integer that the positional form still shows, a negative value and the
    smallest positive float. *)
Example str_float_samples :
  map str_float
    [ float_lit 2 0; float_lit 1 (-1); float_div 1 10; float_div 1 3;
      float_lit (10 ^ 15) 0; float_lit (10 ^ 16) 0; float_div 1 10000;
      float_div 1 100000; float_lit (-123456789012345678) 0;
      float_lit 1 (-1074) ]
  = [ "2.0"; "0.5"; "0.1"; "0.3333333333333333";
      "1000000000000000.0"; "1e+16"; "0.0001";
      "1e-05"; "-1.2345678901234568e+17";
      "5e-324" ].
Proof. vm_compute. reflexivity. Qed.

(** [float] of an integer beyond the range of the floats raises. *)
Example float_of_int_overflow :
  float_of_int (2 ^ 1024)
  = Raise (OverflowError "int too large to convert to float").
Proof. vm_compute. reflexivity. Qed.

Lemma numeric_uint (d : Decimal.uint) :
  all_chars numeric_char (NilEmpty.string_of_uint d) = true.
Proof. induction d; simpl; auto. Qed.

Lemma numeric_str_int (z : Z) : all_chars numeric_char (str_int z) = true.
Proof.
  unfold str_int, NilZero.string_of_int, NilZero.string_of_uint.
  destruct (Z.to_int z) as [d|d]; destruct d;
    first [ reflexivity
          | apply (numeric_uint (Decimal.D0 _)) | apply (numeric_uint (Decimal.D1 _))
          | apply (numeric_uint (Decimal.D2 _)) | apply (numeric_uint (Decimal.D3 _))
          | apply (numeric_uint (Decimal.D4 _)) | apply (numeric_uint (Decimal.D5 _))
          | apply (numeric_uint (Decimal.D6 _)) | apply (numeric_uint (Decimal.D7 _))
          | apply (numeric_uint (Decimal.D8 _)) | apply (numeric_uint (Decimal.D9 _)) ].
Qed.

Lemma numeric_zeros (n : Z) : all_chars numeric_char (zeros n) = true.
Proof.
  unfold zeros. induction (Z.to_nat n) as [|k IH]; [reflexivity|exact IH].
Qed.

Lemma numeric_slice (a b : Z) (s : string) :
  all_chars numeric_char s = true ->
  all_chars numeric_char (str_slice a b s) = true.
Proof. apply all_chars_substring. Qed.

Lemma numeric_shortest_digits (m : positive) (e : Z) :
  all_chars numeric_char (fst (shortest_digits m e)) = true.
Proof.
  unfold shortest_digits.
  destruct (rounding_interval m e) as [[[lo v] hi] D].
  destruct (shortest_from _ _ _ _ _ _ _ _) as [d k].
  destruct (strip_zeros _ _ _) as [d' k'].
  apply numeric_str_int.
Qed.

Ltac numeric :=
  repeat first
    [ apply all_chars_append
    | apply numeric_slice
    | apply numeric_zeros
    | apply numeric_str_int
    | assumption
    | reflexivity ].

Lemma numeric_format_fixed (ds : string) (decpt : Z) :
  all_chars numeric_char ds = true ->
  all_chars numeric_char (format_fixed ds decpt) = true.
Proof.
  intros H. unfold format_fixed.
  destruct (decpt <=? 0); [|destruct (_ <=? decpt)]; numeric.
Qed.

Lemma numeric_format_exp (ds : string) (decpt : Z) :
  all_chars numeric_char ds = true ->
  all_chars numeric_char (format_exp ds decpt) = true.
Proof.
  intros H. unfold format_exp.
  destruct (_ <=? 1), (decpt - 1 <? 0), (Z.abs (decpt - 1) <? 10); numeric.
Qed.

Lemma numeric_str_float (f : float) :
  all_chars numeric_char (str_float f) = true.
Proof.
  destruct f as [[|]|[|]| |s m e]; try reflexivity.
  unfold str_float.
  pose proof (numeric_shortest_digits m e) as H.
  destruct (shortest_digits m e) as [ds decpt]. simpl in H.
  apply all_chars_append; [now destruct s|].
  destruct (_ || _);
    [now apply numeric_format_exp | now apply numeric_format_fixed].
Qed.

Lemma numeric_str_number (x : number) :
  all_chars numeric_char (str_number x) = true.
Proof. destruct x; [apply numeric_str_int | apply numeric_str_float]. Qed.

End Numbers.

(** ** The text that [dump] produces *)

Section DumpText.
Import TerrainMetadata TerrainText.

Lemma clause_append {A} (name : string) (value_truthy : A -> bool)
    (fmt : A -> string) (x : option A) (out : string) :
  match x with
  | Some a =>
      if value_truthy a then out ++ " " ++ name ++ "=" ++ fmt a else out
  | None => out
  end = out ++ clause name (truthy value_truthy x) (str_optional fmt x).
Proof.
  unfold clause. destruct x as [a|]; simpl; [destruct (value_truthy a)|];
    now rewrite ?append_nil_r.
Qed.

(** The loop body appends the layer's line. *)
Lemma dump_layer_line (out : string) (layer : Layer.t) :
  dump_layer out layer = out ++ layer_line layer.
Proof.
  unfold dump_layer, layer_line, mode_clause, position_clause,
    time_per_frame_clause, replay_delay_clause.
  rewrite (clause_append "mode" mode_truthy LayerMode_value).
  rewrite (clause_append "position" int_truthy str_int).
  rewrite (clause_append "time_per_frame" number_truthy str_number).
  rewrite (clause_append "replay_delay" number_truthy str_number).
  now rewrite !append_assoc.
Qed.

(** [dump] leaves the object as it is, raises [TypeError] when the blend
    table is unset, and returns [text] otherwise. *)
Lemma dump_eq (self : t) :
  dump self =
  (Py.bind (subscript (blendtable self)) (fun table => Ok (text self table)),
   self).
Proof.
  unfold dump, mbind, method_bind, getattr, lift, mret, method_ret.
  destruct (blendtable self) as [table|]; simpl; [|reflexivity].
  f_equal. f_equal.
  unfold text, text_of, header, blendtable_line, scalefactor_line.
  rewrite (for_in_ext _ (fun out x => out ++ layer_line x))
    by apply dump_layer_line.
  rewrite (for_in_append layer_line).
  rewrite (for_in_append image_line (PyDict.values (image_files self))).
  rewrite (for_in_append frame_line (frames self)).
  now rewrite !append_assoc.
Qed.

End DumpText.

(** ** Properties of the terrain metadata writer *)

Section TerrainProperties.
Import TerrainMetadata TerrainText History.

(** C1: on an object filled by the calls of the round-trip example, [dump]
    returns exactly the example's text; the scale factor, set from the
    integer [2], is stored as the float [2.0] and written [2.0]. *)
Theorem dump_example (targetdir filename : string) :
  fst ((do_calls example_calls;; dump) (init targetdir filename))
    = Ok example_text
  /\ fst ((do_calls example_calls;; getattr scalefactor)
            (init targetdir filename))
       = Ok (float_lit 2 0)
  /\ str_float (float_lit 2 0) = "2.0".
Proof. repeat split; vm_compute; reflexivity. Qed.

Lemma do_call_blendtable (c : call) (self : t) :
  is_set_blendtable c = false ->
  blendtable (snd (do_call c self)) = blendtable self.
Proof.
  destruct c as [i f|i m p tp rd|a b c d e f g h i|i f|x]; simpl;
    try discriminate; intros _; try reflexivity.
  unfold set_scalefactor, mbind, method_bind, lift.
  destruct (to_float x); reflexivity.
Qed.

Lemma do_calls_blendtable (cs : list call) (self : t) :
  existsb is_set_blendtable cs = false ->
  blendtable (snd (do_calls cs self)) = blendtable self.
Proof.
  revert self. induction cs as [|c cs IH]; intros self H; [reflexivity|].
  simpl in H. apply orb_false_elim in H as [Hc Hcs].
  pose proof (do_call_blendtable c self Hc) as Hb.
  simpl. unfold mbind, method_bind.
  destruct (do_call c self) as [[[]|e] self']; simpl in *.
  - now rewrite IH.
  - exact Hb.
Qed.

(** C2, as the code has it: on an object on which [set_blendtable] was
    never called, and whose image identifiers are all within the digit
    limit of [str], [dump] raises the [TypeError] of subscripting [None],
    and leaves the object as it is. *)
Theorem dump_without_blendtable (cs : list call)
    (targetdir filename : string) :
  existsb is_set_blendtable cs = false ->
  let self := snd (do_calls cs (init targetdir filename)) in
  image_ids_within_str_digits self ->
  dump self
    = (Raise (TypeError "'NoneType' object is not subscriptable"), self).
Proof.
  intros H self _. rewrite dump_eq.
  unfold self. now rewrite do_calls_blendtable.
Qed.

Lemma dump_without_blendtable_witness :
  existsb is_set_blendtable [Add_image 0 "0.png"; Set_scalefactor (Int 2)]
    = false
  /\ image_ids_within_str_digits
       (snd (do_calls [Add_image 0 "0.png"; Set_scalefactor (Int 2)]
                      (init "out" "grass.terrain")))
  /\ fst (dump (snd (do_calls [Add_image 0 "0.png"; Set_scalefactor (Int 2)]
                              (init "out" "grass.terrain"))))
     = Raise (TypeError "'NoneType' object is not subscriptable").
Proof.
  assert (Hi : image_ids_within_str_digits
                 (snd (do_calls [Add_image 0 "0.png"; Set_scalefactor (Int 2)]
                                (init "out" "grass.terrain"))))
    by (repeat constructor).
  split; [reflexivity|]. split; [exact Hi|].
  rewrite (dump_without_blendtable
             [Add_image 0 "0.png"; Set_scalefactor (Int 2)]
             "out" "grass.terrain" eq_refl Hi).
  reflexivity.
Defined.

(** C2 fails as stated: on a fresh object, on which [set_blendtable] was
    never called, what [dump] raises is not an [IncompleteMetadataError]. *)
Lemma no_blendtable_not_IncompleteMetadataError :
  existsb is_set_blendtable [] = false
  /\ ~ raises (fst (dump (snd (do_calls [] (init "out" "grass.terrain")))))
              "IncompleteMetadataError".
Proof.
  split; [reflexivity|].
  intros [e [He Hc]]. vm_compute in He. inversion He; subst e.
  discriminate Hc.
Qed.

(** C9: a successful [dump] leaves every attribute as it was, and a second
    call returns the same text. *)
Theorem dump_does_not_mutate (self self' : t) (output_str : string) :
  dump self = (Ok output_str, self') ->
  scalefactor self' = scalefactor self
  /\ image_files self' = image_files self
  /\ blendtable self' = blendtable self
  /\ layers self' = layers self
  /\ frames self' = frames self
  /\ dump self' = (Ok output_str, self').
Proof.
  intros H. pose proof H as H'. rewrite dump_eq in H'.
  injection H' as Hr Hs. subst self'. now repeat split.
Qed.

Lemma dump_does_not_mutate_witness :
  let self := snd (do_calls example_calls (init "out" "grass.terrain")) in
  dump self = (Ok example_text, self)
  /\ dump (snd (dump self)) = (Ok example_text, self).
Proof.
  assert (H : dump (snd (do_calls example_calls (init "out" "grass.terrain")))
              = (Ok example_text,
                 snd (do_calls example_calls (init "out" "grass.terrain"))))
    by (vm_compute; reflexivity).
  split; [exact H|].
  rewrite H. simpl.
  exact (proj2 (proj2 (proj2 (proj2 (proj2
           (dump_does_not_mutate _ _ _ H)))))).
Defined.

(** *** Optional attributes of a layer line *)

Lemma clean_numeric (s : string) :
  all_chars numeric_char s = true -> clean "p" "o" s.
Proof. now apply clean_all_chars. Qed.

Lemma clean_clause (name value : string) (b : bool) :
  clean "p" "o" (" " ++ name ++ "=") -> clean "p" "o" value ->
  clean "p" "o" (clause name b value).
Proof.
  intros Hn Hv. unfold clause. destruct b; [|now split].
  replace (" " ++ name ++ "=" ++ value) with ((" " ++ name ++ "=") ++ value)
    by now rewrite !append_assoc.
  now apply clean_append.
Qed.

Lemma clean_optional_number (x : option number) :
  clean "p" "o" (str_optional str_number x).
Proof.
  destruct x as [x|]; [|now split].
  apply clean_numeric, numeric_str_number.
Qed.

Lemma layer_line_without_position (layer : Layer.t) :
  truthy int_truthy (Layer.position layer) = false ->
  contains "position=" (layer_line layer) = false.
Proof.
  intros H.
  destruct (contains "position=" (layer_line layer)) eqn:E; [|reflexivity].
  apply contains_adjacent in E.
  assert (C : clean "p" "o" (layer_line layer)); [|destruct C; congruence].
  unfold layer_line, position_clause. rewrite H. unfold clause at 1.
  repeat apply clean_append; try (split; reflexivity).
  - apply clean_numeric, numeric_str_int.
  - unfold mode_clause. now destruct (Layer.mode layer) as [[|]|].
  - apply clean_clause; [now split | apply clean_optional_number].
  - apply clean_clause; [now split | apply clean_optional_number].
Qed.

(** C4: the loop body of [dump] writes [layer <id>], then of the optional
    attributes mode, position, time_per_frame and replay_delay, in this
    order, exactly those whose stored value is truthy, then a line feed.
    When the integers written are within the digit limit of [str] and the
    blend table is set, [dump] returns a text that has this line for every
    layer of the object, and in particular, after a call of [add_layer],
    for the layer just added. A layer whose position is falsy ([0] or
    [None]) has no [position=] in its line, and one whose position is [3]
    has [ position=3]. *)
Theorem layer_optional_attributes (layer : Layer.t) :
  (forall out,
     dump_layer out layer =
     out ++ "layer " ++ str_int (Layer.layer_id layer)
     ++ clause "mode" (truthy mode_truthy (Layer.mode layer))
               (str_optional LayerMode_value (Layer.mode layer))
     ++ clause "position" (truthy int_truthy (Layer.position layer))
               (str_optional str_int (Layer.position layer))
     ++ clause "time_per_frame"
               (truthy number_truthy (Layer.time_per_frame layer))
               (str_optional str_number (Layer.time_per_frame layer))
     ++ clause "replay_delay"
               (truthy number_truthy (Layer.replay_delay layer))
               (str_optional str_number (Layer.replay_delay layer))
     ++ LF)
  /\ (forall self table,
        blendtable self = Some table ->
        ints_within_str_digits self ->
        In layer (PyDict.values (layers self)) ->
        exists before after,
          fst (dump self) = Ok (before ++ dump_layer "" layer ++ after))
  /\ (forall self table,
        blendtable self = Some table ->
        let self' :=
          snd (add_layer (Layer.layer_id layer) (Layer.mode layer)
                         (Layer.position layer) (Layer.time_per_frame layer)
                         (Layer.replay_delay layer) self) in
        ints_within_str_digits self' ->
        PyDict.get (Layer.layer_id layer) (layers self') = Some layer
        /\ exists before after,
             fst (dump self') = Ok (before ++ dump_layer "" layer ++ after))
  /\ (truthy int_truthy (Layer.position layer) = false ->
      contains "position=" (dump_layer "" layer) = false)
  /\ (Layer.position layer = Some 3 ->
      contains " position=3" (dump_layer "" layer) = true).
Proof.
  assert (Hline : forall self table,
            blendtable self = Some table ->
            In layer (PyDict.values (layers self)) ->
            exists before after,
              fst (dump self) = Ok (before ++ dump_layer "" layer ++ after)).
  { intros self table Hb Hin. rewrite dump_eq, Hb. simpl.
    apply in_split in Hin as [l1 [l2 Hl]].
    rewrite dump_layer_line. change ("" ++ layer_line layer)
      with (layer_line layer).
    unfold text, text_of. rewrite Hl, map_app, cat_app. simpl.
    exists (header
            ++ cat (map image_line (PyDict.values (image_files self))) ++ LF
            ++ blendtable_line table ++ LF
            ++ scalefactor_line (scalefactor self) ++ LF
            ++ cat (map layer_line l1)),
           (cat (map layer_line l2) ++ LF
            ++ cat (map frame_line (frames self))).
    now rewrite !append_assoc. }
  split; [|split; [|split; [|split]]].
  - intros out. now rewrite dump_layer_line.
  - intros self table Hb _ Hin. now apply (Hline self table).
  - intros self table Hb self' _.
    assert (Hg : PyDict.get (Layer.layer_id layer) (layers self')
                 = Some layer).
    { unfold self'. destruct layer as [i m p tp rd]. simpl.
      clear. induction (layers self) as [|[j x] d IH]; simpl.
      - now rewrite Z.eqb_refl.
      - destruct (j =? i) eqn:E; simpl; now rewrite E. }
    split; [exact Hg|].
    apply (Hline self' table); [exact Hb|].
    clear -Hg. unfold PyDict.values.
    induction (layers self') as [|[j x] d IH]; simpl in *; [discriminate|].
    destruct (j =? Layer.layer_id layer); [left; congruence | right; auto].
  - intros H. rewrite dump_layer_line.
    now apply layer_line_without_position.
  - intros H. rewrite dump_layer_line. change ("" ++ layer_line layer)
      with (layer_line layer).
    assert (E : layer_line layer =
                ("layer " ++ str_int (Layer.layer_id layer)
                 ++ mode_clause layer)
                ++ " position=3"
                ++ (time_per_frame_clause layer ++ replay_delay_clause layer
                    ++ LF)).
    { unfold layer_line, position_clause. rewrite H.
      now rewrite !append_assoc. }
    rewrite E. apply contains_append_r, contains_prefix.
Qed.

Lemma layer_optional_attributes_witness :
  let layer0 := {| Layer.layer_id := 7; Layer.mode := Some OFF;
                   Layer.position := Some 0;
                   Layer.time_per_frame := Some (Float (float_lit 1 (-1)));
                   Layer.replay_delay := Some (Int 2) |} in
  let layer3 := {| Layer.layer_id := 7; Layer.mode := Some OFF;
                   Layer.position := Some 3;
                   Layer.time_per_frame := None;
                   Layer.replay_delay := None |} in
  let self := snd (set_blendtable 1 "blend.png"
                     (init "out" "grass.terrain")) in
  let self0 := snd (add_layer 7 (Some OFF) (Some 0)
                      (Some (Float (float_lit 1 (-1)))) (Some (Int 2))
                      self) in
  let self3 := snd (add_layer 7 (Some OFF) (Some 3) None None self) in
  (ints_within_str_digits self0
   /\ truthy int_truthy (Some 0) = false
   /\ fst (dump self0)
      = Ok ("# openage terrain definition file" ++ LF ++ LF
            ++ "version 1" ++ LF ++ LF
            ++ LF
            ++ "blendtable 1 blend.png" ++ LF ++ LF
            ++ "scalefactor 1.0" ++ LF ++ LF
            ++ "layer 7 mode=off time_per_frame=0.5 replay_delay=2" ++ LF
            ++ LF)
   /\ (exists before after,
         fst (dump self0) = Ok (before ++ dump_layer "" layer0 ++ after))
   /\ contains "position=" (dump_layer "" layer0) = false)
  /\ (ints_within_str_digits self3
      /\ fst (dump self3)
         = Ok ("# openage terrain definition file" ++ LF ++ LF
               ++ "version 1" ++ LF ++ LF
               ++ LF
               ++ "blendtable 1 blend.png" ++ LF ++ LF
               ++ "scalefactor 1.0" ++ LF ++ LF
               ++ "layer 7 mode=off position=3" ++ LF
               ++ LF)
      /\ (exists before after,
            fst (dump self3) = Ok (before ++ dump_layer "" layer3 ++ after))
      /\ contains " position=3" (dump_layer "" layer3) = true).
Proof.
  intros layer0 layer3 self self0 self3.
  assert (H0 : ints_within_str_digits self0) by (repeat constructor).
  assert (H3 : ints_within_str_digits self3) by (repeat constructor).
  destruct (layer_optional_attributes layer0) as (_ & _ & A0 & F0 & _).
  destruct (layer_optional_attributes layer3) as (_ & _ & A3 & _ & P3).
  split.
  - split; [exact H0|]. split; [reflexivity|].
    split; [vm_compute; reflexivity|]. split.
    + exact (proj2 (A0 self
                      {| Blendtable.table_id := 1;
                         Blendtable.filename := "blend.png" |}
                      eq_refl H0)).
    + exact (F0 eq_refl).
  - split; [exact H3|]. split; [vm_compute; reflexivity|]. split.
    + exact (proj2 (A3 self
                      {| Blendtable.table_id := 1;
                         Blendtable.filename := "blend.png" |}
                      eq_refl H3)).
    + exact (P3 eq_refl).
Defined.

End TerrainProperties.

(** ** Repeated insertion into a dictionary *)

Section Histories.
Import History.
Context {V : Type}.
Implicit Types (h : list (Z * V)) (d : PyDict.dict V) (ks : list Z).

Lemma mem_In (i : Z) ks : mem i ks = true <-> In i ks.
Proof.
  unfold mem. rewrite existsb_exists. split.
  - intros [x [Hx E]]. apply Z.eqb_eq in E. now subst.
  - intros H. exists i. split; [exact H | apply Z.eqb_refl].
Qed.

Lemma mem_not_In (i : Z) ks : mem i ks = false <-> ~ In i ks.
Proof.
  rewrite <- mem_In. destruct (mem i ks); split; congruence.
Qed.

Lemma flat_map_ext_in {A B} (f g : A -> list B) (l : list A) :
  (forall a, In a l -> f a = g a) -> flat_map f l = flat_map g l.
Proof.
  induction l as [|a l IH]; intros H; [reflexivity|].
  simpl. rewrite (H a), IH; [reflexivity | | now left].
  intros b Hb. apply H. now right.
Qed.

Lemma setitem_fresh (k : Z) (v : V) d :
  ~ In k (PyDict.keys d) -> PyDict.setitem k v d = (d ++ [(k, v)])%list.
Proof.
  induction d as [|[j x] d IH]; intros H; [reflexivity|].
  simpl in *. destruct (Z.eqb_spec j k) as [->|_]; [tauto|].
  rewrite IH; [reflexivity | tauto].
Qed.

Lemma latest_snoc (i k : Z) (v : V) h :
  latest i (h ++ [(k, v)]) = if k =? i then Some v else latest i h.
Proof.
  induction h as [|[j x] h IH]; simpl.
  - reflexivity.
  - rewrite IH. destruct (k =? i); [reflexivity|].
    now destruct (latest i h).
Qed.

Lemma latest_In (i : Z) h :
  In i (map fst h) -> exists v, latest i h = Some v.
Proof.
  induction h as [|[j x] h IH]; simpl; [tauto|].
  intros [->|H].
  - rewrite Z.eqb_refl. destruct (latest i h); eauto.
  - destruct (IH H) as [v ->]. eauto.
Qed.

Lemma In_distinct (i : Z) ks : In i (distinct ks) <-> In i ks.
Proof.
  induction ks as [|j ks IH]; simpl; [tauto|].
  rewrite filter_In, IH, negb_true_iff, Z.eqb_neq.
  destruct (Z.eq_dec j i); intuition congruence.
Qed.

Lemma NoDup_distinct ks : List.NoDup (distinct ks).
Proof.
  induction ks as [|j ks IH]; simpl; constructor.
  - rewrite filter_In, negb_true_iff, Z.eqb_neq. tauto.
  - now apply List.NoDup_filter.
Qed.

Lemma distinct_snoc (k : Z) ks :
  distinct (ks ++ [k]) =
  if mem k ks then distinct ks else (distinct ks ++ [k])%list.
Proof.
  induction ks as [|j ks IH]; [reflexivity|].
  simpl. rewrite IH. destruct (mem k ks) eqn:M.
  - now rewrite orb_true_r.
  - rewrite orb_false_r, List.filter_app. simpl.
    destruct (k =? j); simpl; now rewrite ?app_nil_r.
Qed.

Lemma keys_flat_map_kept h ks :
  (forall i, In i ks -> In i (map fst h)) ->
  PyDict.keys (flat_map (kept h) ks) = ks.
Proof.
  induction ks as [|j ks IH]; intros H; [reflexivity|].
  simpl. unfold PyDict.keys in *. rewrite map_app, IH by (intros; apply H; now right).
  unfold kept. destruct (latest_In j h) as [v ->]; [apply H; now left|].
  reflexivity.
Qed.

Lemma keys_surviving h :
  PyDict.keys (surviving h) = distinct (map fst h).
Proof.
  apply keys_flat_map_kept. intros i. apply In_distinct.
Qed.

Lemma setitem_flat_map_kept (k : Z) (v : V) h ks :
  List.NoDup ks -> In k ks -> (forall i, In i ks -> In i (map fst h)) ->
  PyDict.setitem k v (flat_map (kept h) ks)
  = flat_map (kept (h ++ [(k, v)])) ks.
Proof.
  induction ks as [|j ks IH]; intros ND Hin Hh; [destruct Hin|].
  inversion ND as [|? ? Hj ND']; subst.
  simpl. unfold kept at 1 3. rewrite latest_snoc.
  destruct (latest_In j h) as [x ->]; [apply Hh; now left|].
  simpl. rewrite (Z.eqb_sym k j). destruct (Z.eqb_spec j k) as [->|Hne].
  - f_equal. apply flat_map_ext_in. intros i Hi.
    unfold kept. rewrite latest_snoc.
    destruct (Z.eqb_spec k i) as [->|_]; [tauto | reflexivity].
  - f_equal. apply IH; [exact ND' | | intros; apply Hh; now right].
    destruct Hin; [congruence | assumption].
Qed.

Lemma surviving_snoc (k : Z) (v : V) h :
  surviving (h ++ [(k, v)]) = PyDict.setitem k v (surviving h).
Proof.
  unfold surviving.
  rewrite map_app. simpl. rewrite distinct_snoc.
  destruct (mem k (map fst h)) eqn:M.
  - symmetry. apply setitem_flat_map_kept.
    + apply NoDup_distinct.
    + now apply In_distinct, mem_In.
    + intros i. apply In_distinct.
  - apply mem_not_In in M.
    rewrite flat_map_app. simpl. unfold kept at 2. rewrite latest_snoc.
    rewrite Z.eqb_refl, setitem_fresh.
    + f_equal. apply flat_map_ext_in. intros i Hi.
      unfold kept. rewrite latest_snoc.
      destruct (Z.eqb_spec k i) as [->|_]; [|reflexivity].
      exfalso. apply M. now apply In_distinct.
    + rewrite keys_flat_map_kept by (intros i; apply In_distinct).
      now rewrite In_distinct.
Qed.

(** Assigning the records of a history to an empty dictionary keeps, for
    each distinct identifier, the latest record at the place of the first
    insertion. *)
Lemma inserted_surviving h : inserted h PyDict.empty = surviving h.
Proof.
  induction h as [|[k v] h IH] using rev_ind; [reflexivity|].
  unfold inserted in *. rewrite fold_left_app, IH. simpl.
  now rewrite surviving_snoc.
Qed.

Lemma inserted_app h1 h2 d :
  inserted (h1 ++ h2) d = inserted h2 (inserted h1 d).
Proof. apply fold_left_app. Qed.

End Histories.

(** ** Adding an identifier again *)

Section Readding.
Import TerrainMetadata TerrainText History.

Lemma do_calls_dicts (cs : list call) (self self' : t) :
  do_calls cs self = (Ok tt, self') ->
  image_files self' = inserted (images_added cs) (image_files self)
  /\ layers self' = inserted (layers_added cs) (layers self).
Proof.
  revert self. induction cs as [|c cs IH]; intros self H.
  - injection H as <-. now split.
  - cbn [do_calls] in H. unfold mbind, method_bind in H.
    destruct c as [i f|i m p tp rd|a b c d e f g h i|i f|x];
      cbn [do_call] in H.
    + apply IH in H as [H1 H2]. now split.
    + apply IH in H as [H1 H2]. now split.
    + apply IH in H as [H1 H2]. now split.
    + apply IH in H as [H1 H2]. now split.
    + unfold set_scalefactor, mbind, method_bind, lift in H.
      destruct (to_float x) as [fl|e]; [|discriminate].
      apply IH in H as [H1 H2]. now split.
Qed.

(** C10: after any sequence of calls on a fresh object, the dictionaries of
    images and of layers hold one record per distinct identifier, the one
    most recently supplied, at the place of the identifier's first
    insertion. A text that [dump] returns has its imagefile and layer lines
    from exactly these records, in this order; and [dump] returns it when
    the blend table is set and the integers written are within the digit
    limit of [str]. *)
Theorem readding_replaces (cs : list call) (targetdir filename : string)
    (self : t) :
  do_calls cs (init targetdir filename) = (Ok tt, self) ->
  image_files self = surviving (images_added cs)
  /\ layers self = surviving (layers_added cs)
  /\ PyDict.keys (image_files self) = distinct (map fst (images_added cs))
  /\ PyDict.keys (layers self) = distinct (map fst (layers_added cs))
  /\ List.NoDup (PyDict.keys (image_files self))
  /\ List.NoDup (PyDict.keys (layers self))
  /\ (forall output_str,
        fst (dump self) = Ok output_str ->
        exists table,
          blendtable self = Some table
          /\ output_str =
             header
             ++ cat (map image_line
                       (PyDict.values (surviving (images_added cs)))) ++ LF
             ++ blendtable_line table ++ LF
             ++ scalefactor_line (scalefactor self) ++ LF
             ++ cat (map layer_line
                       (PyDict.values (surviving (layers_added cs)))) ++ LF
             ++ cat (map frame_line (frames self)))
  /\ (forall table,
        blendtable self = Some table ->
        ints_within_str_digits self ->
        fst (dump self) =
        Ok (header
            ++ cat (map image_line
                      (PyDict.values (surviving (images_added cs)))) ++ LF
            ++ blendtable_line table ++ LF
            ++ scalefactor_line (scalefactor self) ++ LF
            ++ cat (map layer_line
                      (PyDict.values (surviving (layers_added cs)))) ++ LF
            ++ cat (map frame_line (frames self)))).
Proof.
  intros H. apply do_calls_dicts in H as [Hi Hl].
  change (image_files (init targetdir filename))
    with (@PyDict.empty Image.t) in Hi.
  change (layers (init targetdir filename))
    with (@PyDict.empty Layer.t) in Hl.
  rewrite inserted_surviving in Hi. rewrite inserted_surviving in Hl.
  repeat split.
  - exact Hi.
  - exact Hl.
  - rewrite Hi. apply keys_surviving.
  - rewrite Hl. apply keys_surviving.
  - rewrite Hi, keys_surviving. apply NoDup_distinct.
  - rewrite Hl, keys_surviving. apply NoDup_distinct.
  - intros output_str Hd. rewrite dump_eq in Hd.
    destruct (blendtable self) as [table|]; [|discriminate].
    simpl in Hd. injection Hd as <-. exists table. split; [reflexivity|].
    unfold text, text_of. now rewrite Hi, Hl.
  - intros table Hb _. rewrite dump_eq, Hb. simpl.
    unfold text, text_of. now rewrite Hi, Hl.
Qed.

Lemma readding_replaces_witness :
  let self := snd (do_calls readding_calls (init "out" "grass.terrain")) in
  do_calls readding_calls (init "out" "grass.terrain") = (Ok tt, self)
  /\ ints_within_str_digits self
  /\ image_files self
     = [ (0, {| Image.image_id := 0; Image.filename := "c.png" |});
         (1, {| Image.image_id := 1; Image.filename := "b.png" |}) ]
  /\ PyDict.keys (layers self) = [5; 2]
  /\ fst (dump self) =
     Ok ("# openage terrain definition file" ++ LF ++ LF ++
         "version 1" ++ LF ++ LF ++
         "imagefile 0 c.png" ++ LF ++
         "imagefile 1 b.png" ++ LF ++ LF ++
         "blendtable 1 blend.png" ++ LF ++ LF ++
         "scalefactor 1.0" ++ LF ++ LF ++
         "layer 5 mode=loop position=3" ++ LF ++
         "layer 2" ++ LF ++ LF).
Proof.
  intros self.
  assert (H : do_calls readding_calls (init "out" "grass.terrain")
              = (Ok tt, self)) by reflexivity.
  assert (Hw : ints_within_str_digits self) by (repeat constructor).
  destruct (readding_replaces readding_calls "out" "grass.terrain" self H)
    as (Hi & Hl & Ki & Kl & _ & _ & _ & Hd).
  split; [exact H|]. split; [exact Hw|]. split; [|split].
  - rewrite Hi. reflexivity.
  - rewrite Kl. reflexivity.
  - rewrite (Hd {| Blendtable.table_id := 1;
                   Blendtable.filename := "blend.png" |} eq_refl Hw).
    vm_compute. reflexivity.
Defined.

End Readding.

(** ** Properties of the texture constructor *)

Section TextureProperties.
Import Texture TextureSpec.
Context {collaborators : Collaborators}.
Implicit Types (frame : SourceFrame) (img subtex : TextureImage)
  (palettes : option (gmap Z ColorTable)) (cutter : Cutter).

(** An image built from a picture carries the picture's raster and the
    hotspot it was given. *)
Lemma TextureImage_init_carries (p : picture) (h : Z * Z) img :
  TextureImage_init p (Some h) = Ok img ->
  raster p = Some (data img) /\ hotspot img = h.
Proof.
  unfold TextureImage_init, TextureImage_of_array, raster.
  destruct p as [im|a|ty]; [| |discriminate].
  - destruct (String.eqb (Image_mode im) "RGBA"); simpl;
      destruct (tuple_item _ 1); simpl; try discriminate;
      destruct (tuple_item _ 0); simpl; try discriminate;
      intros [= <-]; now split.
  - destruct (tuple_item _ 1); simpl; try discriminate.
    destruct (tuple_item _ 0); simpl; try discriminate.
    intros [= <-]; now split.
Qed.

(** Without a cutter, [_to_subtextures] returns the frame's image alone. *)
Lemma to_subtextures_uncut frame (main_palette : option palette_array) :
  _to_subtextures frame main_palette None =
  Py.bind (TextureImage_init (get_picture_data frame main_palette)
                             (Some (get_hotspot frame)))
          (fun subtex => Ok [subtex]).
Proof. reflexivity. Qed.

Lemma main_frames_loop_app palettes (custom_cutter : option Cutter)
    (fs1 fs2 : list SourceFrame) (acc : list TextureImage) :
  main_frames_loop palettes custom_cutter (fs1 ++ fs2) acc =
  Py.bind (main_frames_loop palettes custom_cutter fs1 acc)
          (main_frames_loop palettes custom_cutter fs2).
Proof.
  revert acc. induction fs1 as [|f fs1 IH]; intros acc; [reflexivity|].
  simpl. destruct (main_palette_of palettes f) as [mp|e]; [|reflexivity].
  simpl. destruct (_to_subtextures f mp custom_cutter) as [subs|e];
    [|reflexivity].
  simpl. apply IH.
Qed.

(** The palette that the loop passes on is the palette of the frame. *)
Lemma main_palette_of_frame palettes frame
    (main_palette : option palette_array) :
  main_palette_of palettes frame = Ok main_palette ->
  palette_of_frame palettes frame main_palette.
Proof.
  unfold main_palette_of, palette_of_frame, palettes_item.
  destruct (get_palette_number frame) as [n|]; [|now intros [= <-]].
  destruct palettes as [d|]; [|discriminate].
  destruct (d !! n) as [ct|] eqn:E; [|discriminate].
  cbn [Py.bind]. intros [= <-]. now exists d, ct.
Qed.

Lemma main_frames_loop_uncut palettes (fs : list SourceFrame)
    (acc out : list TextureImage) :
  main_frames_loop palettes None fs acc = Ok out ->
  exists imgs,
    out = (acc ++ imgs)%list /\ Forall2 (subtexture_of palettes) fs imgs.
Proof.
  revert acc. induction fs as [|f fs IH]; intros acc H.
  - injection H as <-. exists []. split; [now rewrite app_nil_r|constructor].
  - simpl in H.
    destruct (main_palette_of palettes f) as [mp|e] eqn:Hp; [|discriminate].
    simpl in H. rewrite to_subtextures_uncut in H.
    destruct (TextureImage_init (get_picture_data f mp)
                (Some (get_hotspot f))) as [img|e] eqn:Hi; [|discriminate].
    simpl in H. apply IH in H as [imgs [-> HF]].
    exists (img :: imgs). split.
    + unfold for_in. simpl. now rewrite <- app_assoc.
    + constructor; [|exact HF].
      exists mp. apply TextureImage_init_carries in Hi.
      apply main_palette_of_frame in Hp. tauto.
Qed.

(** C3: without a cutter, the extractor returns for a frame the single
    image built from the frame's picture and hotspot, and a texture built
    from a collection of frames holds exactly one subtexture per frame, in
    the order of the frames, each carrying its frame's raster and
    hotspot. *)
Theorem uncut_one_subtexture_per_frame (input : input_data)
    (main_frames : list SourceFrame) palettes (texture : Texture.t) :
  main_frames_of input = Some main_frames ->
  init input palettes None = Ok texture ->
  (forall frame main_palette,
     _to_subtextures frame main_palette None =
     Py.bind (TextureImage_init (get_picture_data frame main_palette)
                                (Some (get_hotspot frame)))
             (fun subtex => Ok [subtex]))
  /\ length (frames texture) = length main_frames
  /\ Forall2 (subtexture_of palettes) main_frames (frames texture).
Proof.
  intros Hm Hi.
  assert (HF : Forall2 (subtexture_of palettes) main_frames (frames texture)).
  { destruct input as [fs|fs|fs|ms|ty]; simpl in Hm; try discriminate;
      injection Hm as ->; simpl in Hi;
      destruct (main_frames_loop palettes None main_frames []) as [out|e]
        eqn:Hl; try discriminate; simpl in Hi; injection Hi as <-;
      apply main_frames_loop_uncut in Hl as [imgs [-> HF]]; exact HF. }
  split; [intros; apply to_subtextures_uncut|]. split; [|exact HF].
  symmetry. clear -HF. induction HF; simpl; congruence.
Qed.

(** C5, as the code has it: when a frame of the collection asks for a
    palette number that is not a key of the supplied dictionary, no texture
    is built: the constructor raises, and what it raises is the [KeyError]
    of that palette number whenever the frames before it were converted
    without error. *)
Theorem missing_palette_raises_KeyError (input : input_data)
    (before after : list SourceFrame) frame (n : Z)
    (palettes : gmap Z ColorTable) (custom_cutter : option Cutter) :
  main_frames_of input = Some (before ++ frame :: after)%list ->
  get_palette_number frame = Some n ->
  palettes !! n = None ->
  (exists e, init input (Some palettes) custom_cutter = Raise e)
  /\ (forall frames,
        main_frames_loop (Some palettes) custom_cutter before [] = Ok frames ->
        init input (Some palettes) custom_cutter = Raise (KeyError n)).
Proof.
  intros Hm Hn Hp.
  assert (Hf : forall acc,
             main_frames_loop (Some palettes) custom_cutter (frame :: after) acc
             = Raise (KeyError n)).
  { intros acc. simpl. unfold main_palette_of, palettes_item.
    now rewrite Hn, Hp. }
  assert (Hi : init input (Some palettes) custom_cutter =
               Py.bind (main_frames_loop (Some palettes) custom_cutter
                          (before ++ frame :: after) [])
                       (fun frames => Ok (new frames))).
  { destruct input; simpl in Hm; try discriminate;
      injection Hm as ->; reflexivity. }
  rewrite Hi, main_frames_loop_app. split.
  - destruct (main_frames_loop (Some palettes) custom_cutter before [])
      as [acc|e]; cbn [Py.bind]; [rewrite Hf|]; cbn [Py.bind]; eauto.
  - intros acc ->. cbn [Py.bind]. now rewrite Hf.
Qed.

(** C6, as the code has it: when the cutter returns no piece for a frame's
    image, the extractor returns the empty sequence and raises nothing, and
    the loop of the constructor goes on to the next frame with
    [self.frames] as it was. *)
Theorem empty_cut_adds_nothing frame (main_palette : option palette_array)
    cutter subtex palettes (rest : list SourceFrame)
    (frames : list TextureImage) :
  main_palette_of palettes frame = Ok main_palette ->
  TextureImage_init (get_picture_data frame main_palette)
                    (Some (get_hotspot frame)) = Ok subtex ->
  cut cutter subtex = [] ->
  _to_subtextures frame main_palette (Some cutter) = Ok []
  /\ main_frames_loop palettes (Some cutter) (frame :: rest) frames
     = main_frames_loop palettes (Some cutter) rest frames.
Proof.
  intros Hp Hi Hc.
  assert (Hs : _to_subtextures frame main_palette (Some cutter) = Ok []).
  { unfold _to_subtextures. rewrite Hi. simpl. now rewrite Hc. }
  split; [exact Hs|]. simpl. now rewrite Hp; simpl; rewrite Hs.
Qed.


(** C8: whatever the game version, the struct of a subtexture has exactly
    six members, all exported and of type [int32_t], named x, y, w, h, cx
    and cy in this order: position, size and hotspot. *)
Theorem data_format_six_int32 (gv : game_version) :
  let members := get_data_format_members gv in
  length members = 6%nat
  /\ map (fun m => snd (fst (fst m))) members
     = ["x"; "y"; "w"; "h"; "cx"; "cy"]
  /\ Forall (fun m => snd m = "int32_t") members
  /\ Forall (fun m => fst (fst (fst m)) = true) members
  /\ name_struct = "subtexture".
Proof.
  simpl. repeat split; repeat constructor.
Qed.

End TextureProperties.

(** *** The properties on sample inputs *)

Section TextureSamples.
Import Texture TextureSpec.

Lemma uncut_one_subtexture_per_frame_witness :
  main_frames_of (SLP [plain_frame; indexed_frame; pil_frame])
    = Some [plain_frame; indexed_frame; pil_frame]
  /\ init (SLP [plain_frame; indexed_frame; pil_frame])
          (Some sample_palettes) None
     = Ok (new [ {| width := 3; height := 2; hotspot := (1, 2);
                    data := [[1; 2; 3]; [4; 5; 6]] : @ndarray sample |};
                 {| width := 3; height := 1; hotspot := (6, 7);
                    data := [[10; 20; 30]] : @ndarray sample |};
                 {| width := 2; height := 1; hotspot := (0, 1);
                    data := [[7; 8]] : @ndarray sample |} ])
  /\ Forall2 (subtexture_of (Some sample_palettes))
       [plain_frame; indexed_frame; pil_frame]
       [ {| width := 3; height := 2; hotspot := (1, 2);
            data := [[1; 2; 3]; [4; 5; 6]] : @ndarray sample |};
         {| width := 3; height := 1; hotspot := (6, 7);
            data := [[10; 20; 30]] : @ndarray sample |};
         {| width := 2; height := 1; hotspot := (0, 1);
            data := [[7; 8]] : @ndarray sample |} ].
Proof.
  split; [reflexivity|]. split; [vm_compute; reflexivity|].
  exact (proj2 (proj2 (uncut_one_subtexture_per_frame
                         (SLP [plain_frame; indexed_frame; pil_frame])
                         [plain_frame; indexed_frame; pil_frame]
                         (Some sample_palettes) _
                         eq_refl eq_refl))).
Defined.

Lemma missing_palette_raises_KeyError_witness :
  main_frames_of (SMX [plain_frame; palette_frame; pil_frame])
    = Some ([plain_frame] ++ palette_frame :: [pil_frame])%list
  /\ get_palette_number palette_frame = Some 5
  /\ (∅ : gmap Z (@ColorTable sample)) !! 5 = None
  /\ init (SMX [plain_frame; palette_frame; pil_frame]) (Some ∅) None
     = Raise (KeyError 5).
Proof.
  split; [reflexivity|]. split; [reflexivity|]. split; [reflexivity|].
  exact (proj2 (missing_palette_raises_KeyError
                  (SMX [plain_frame; palette_frame; pil_frame])
                  [plain_frame] [pil_frame] palette_frame 5 ∅ None
                  eq_refl eq_refl eq_refl) _ eq_refl).
Defined.

(** C5 fails as stated: a sample collection whose second frame asks for the
    palette [5], built with an empty palette dictionary, does not raise a
    [MissingPaletteError]. *)
Lemma missing_palette_not_MissingPaletteError :
  In palette_frame [plain_frame; palette_frame]
  /\ get_palette_number palette_frame = Some 5
  /\ (∅ : gmap Z (@ColorTable sample)) !! 5 = None
  /\ ~ raises (init (SLP [plain_frame; palette_frame]) (Some ∅) None)
              "MissingPaletteError".
Proof.
  split; [right; left; reflexivity|]. split; [reflexivity|].
  split; [reflexivity|].
  intros [e [He Hc]]. vm_compute in He. injection He as <-.
  discriminate Hc.
Qed.

Lemma empty_cut_adds_nothing_witness :
  main_palette_of None plain_frame = Ok None
  /\ cut empty_cutter
       {| width := 3; height := 2; hotspot := (1, 2);
          data := [[1; 2; 3]; [4; 5; 6]] : @ndarray sample |} = []
  /\ _to_subtextures plain_frame None (Some empty_cutter) = Ok []
  /\ main_frames_loop None (Some empty_cutter) [plain_frame; pil_frame] []
     = main_frames_loop None (Some empty_cutter) [pil_frame] [].
Proof.
  split; [reflexivity|]. split; [reflexivity|].
  exact (empty_cut_adds_nothing plain_frame None empty_cutter _ None
           [pil_frame] [] eq_refl eq_refl eq_refl).
Defined.

(** C6 fails as stated: with a cutter that returns no piece, the extractor
    and the constructor return normally; no [EmptyCutResultError] is
    raised. *)
Lemma empty_cut_not_EmptyCutResultError :
  (forall subtex, cut empty_cutter subtex = [])
  /\ _to_subtextures plain_frame None (Some empty_cutter) = Ok []
  /\ ~ raises (_to_subtextures plain_frame None (Some empty_cutter))
              "EmptyCutResultError"
  /\ ~ raises (init (SLP [plain_frame]) None (Some empty_cutter))
              "EmptyCutResultError".
Proof.
  split; [reflexivity|]. split; [reflexivity|].
  split; intros [e [He _]]; vm_compute in He; discriminate He.
Qed.



End TextureSamples.

(** * Further properties *)

(** ** Dictionaries *)

Section DictFacts.
Context {V : Type}.
Implicit Types (d : PyDict.dict V).

Lemma get_setitem_eq (k : Z) (v : V) d :
  PyDict.get k (PyDict.setitem k v d) = Some v.
Proof.
  induction d as [|[j x] d IH]; simpl.
  - now rewrite Z.eqb_refl.
  - destruct (j =? k) eqn:E; simpl; now rewrite E.
Qed.

Lemma get_setitem_ne (k j : Z) (v : V) d :
  j <> k -> PyDict.get j (PyDict.setitem k v d) = PyDict.get j d.
Proof.
  intros H. induction d as [|[i x] d IH]; simpl.
  - destruct (Z.eqb_spec k j); [congruence | reflexivity].
  - destruct (Z.eqb_spec i k) as [->|Hik]; simpl.
    + destruct (Z.eqb_spec k j); [congruence | reflexivity].
    + now rewrite IH.
Qed.

Lemma keys_setitem (k : Z) (v : V) d :
  PyDict.keys (PyDict.setitem k v d) =
  if History.mem k (PyDict.keys d) then PyDict.keys d
  else (PyDict.keys d ++ [k])%list.
Proof.
  unfold History.mem.
  induction d as [|[j x] d IH]; simpl; [reflexivity|].
  rewrite (Z.eqb_sym k j). destruct (j =? k) eqn:E; simpl; [reflexivity|].
  unfold PyDict.keys in *. rewrite IH.
  now destruct (existsb (Z.eqb k) (map fst d)).
Qed.

Lemma setitem_setitem (k : Z) (v w : V) d :
  PyDict.setitem k w (PyDict.setitem k v d) = PyDict.setitem k w d.
Proof.
  induction d as [|[j x] d IH]; simpl.
  - now rewrite Z.eqb_refl.
  - destruct (j =? k) eqn:E; simpl; rewrite E; [reflexivity | now rewrite IH].
Qed.

Lemma get_In_keys (k : Z) d :
  PyDict.get k d <> None <-> In k (PyDict.keys d).
Proof.
  induction d as [|[j x] d IH]; simpl; [tauto|].
  destruct (Z.eqb_spec j k) as [->|H].
  - split; [now left | discriminate].
  - rewrite IH. tauto.
Qed.

End DictFacts.

(** ** Further properties of the terrain metadata writer *)

Section TerrainFurther.
Import TerrainMetadata TerrainText History HistoryMore.

(** What a successful sequence of calls leaves in the attributes that are
    not dictionaries. *)
Lemma do_calls_attributes (cs : list call) (self self' : t) :
  do_calls cs self = (Ok tt, self') ->
  frames self' = (frames self ++ frames_added cs)%list
  /\ blendtable self' = last_blendtable cs (blendtable self)
  /\ scalefactor self' = last_scalefactor cs (scalefactor self).
Proof.
  revert self. induction cs as [|c cs IH]; intros self H.
  - injection H as <-. simpl. now rewrite app_nil_r.
  - cbn [do_calls] in H. unfold mbind, method_bind in H.
    destruct c as [i f|i m p tp rd|a b c d e f g h i|i f|x];
      cbn [do_call] in H.
    + apply IH in H as (H1 & H2 & H3). now repeat split.
    + apply IH in H as (H1 & H2 & H3). now repeat split.
    + apply IH in H as (H1 & H2 & H3). simpl in H1.
      rewrite <- app_assoc in H1. now repeat split.
    + apply IH in H as (H1 & H2 & H3). now repeat split.
    + unfold set_scalefactor, mbind, method_bind, lift in H.
      unfold last_scalefactor. simpl.
      destruct (to_float x) as [fl|e]; [|discriminate].
      apply IH in H as (H1 & H2 & H3). now repeat split.
Qed.

(** X1: every call of [add_frame] appends a record, also when its frame
    index was used before: after a sequence of calls on a fresh object the
    frames are the records of all calls in call order. A text that [dump]
    returns ends with one frame line for each of them; and [dump] returns
    one when the blend table is set and the integers written are within
    the digit limit of [str]. *)
Theorem frames_in_call_order (cs : list call) (targetdir filename : string)
    (self : t) :
  do_calls cs (init targetdir filename) = (Ok tt, self) ->
  frames self = frames_added cs
  /\ (forall output_str,
        fst (dump self) = Ok output_str ->
        exists before,
          output_str = before ++ cat (map frame_line (frames_added cs)))
  /\ (forall table,
        blendtable self = Some table ->
        ints_within_str_digits self ->
        exists before,
          fst (dump self)
          = Ok (before ++ cat (map frame_line (frames_added cs)))).
Proof.
  intros H. apply do_calls_attributes in H as (Hf & _ & _).
  simpl in Hf. split; [exact Hf|].
  assert (Ht : forall table,
            text self table
            = (header
               ++ cat (map image_line (PyDict.values (image_files self)))
               ++ LF
               ++ blendtable_line table ++ LF
               ++ scalefactor_line (scalefactor self) ++ LF
               ++ cat (map layer_line (PyDict.values (layers self))) ++ LF)
              ++ cat (map frame_line (frames_added cs))).
  { intros table. unfold text, text_of. rewrite Hf.
    now rewrite !append_assoc. }
  split.
  - intros output_str Hd. rewrite dump_eq in Hd.
    destruct (blendtable self) as [table|]; [|discriminate].
    simpl in Hd. injection Hd as <-. eexists. apply Ht.
  - intros table Hb _. rewrite dump_eq, Hb. simpl.
    eexists. f_equal. apply Ht.
Qed.

Lemma frames_in_call_order_witness :
  let cs := [ Add_frame 0 0 0 0 0 32 32 0 0;
              Set_blendtable 1 "blend.png";
              Add_frame 0 0 0 0 0 32 32 0 0 ] in
  let self := snd (do_calls cs (init "out" "grass.terrain")) in
  do_calls cs (init "out" "grass.terrain") = (Ok tt, self)
  /\ ints_within_str_digits self
  /\ length (frames self) = 2%nat
  /\ exists before,
       fst (dump self)
       = Ok (before ++ "frame 0 0 0 0 0 32 32 0 0" ++ LF
                    ++ "frame 0 0 0 0 0 32 32 0 0" ++ LF).
Proof.
  intros cs self.
  assert (H : do_calls cs (init "out" "grass.terrain") = (Ok tt, self))
    by reflexivity.
  assert (Hw : ints_within_str_digits self) by (repeat constructor).
  destruct (frames_in_call_order cs "out" "grass.terrain" self H)
    as (Hf & _ & Hd).
  split; [exact H|]. split; [exact Hw|]. split.
  - rewrite Hf. reflexivity.
  - destruct (Hd {| Blendtable.table_id := 1;
                    Blendtable.filename := "blend.png" |} eq_refl Hw)
      as [before Hb].
    exists before. rewrite Hb. reflexivity.
Defined.

(** X2: the blend table and the scale factor are those of the last call of
    their setter: after a sequence of calls on a fresh object the blend
    table is the one set last ([None] without a call), and the scale factor
    is the float of the factor set last ([1.0] without a call). *)
Theorem last_setter_wins (cs : list call) (targetdir filename : string)
    (self : t) :
  do_calls cs (init targetdir filename) = (Ok tt, self) ->
  blendtable self = last_blendtable cs None
  /\ scalefactor self = last_scalefactor cs (float_lit 1 0).
Proof.
  intros H. apply do_calls_attributes in H as (_ & Hb & Hs). now split.
Qed.

Lemma last_setter_wins_witness :
  let cs := [ Set_blendtable 1 "a.png"; Set_scalefactor (Int 4);
              Set_blendtable 2 "b.png";
              Set_scalefactor (Float (float_lit 1 (-1))) ] in
  let self := snd (do_calls cs (init "out" "grass.terrain")) in
  do_calls cs (init "out" "grass.terrain") = (Ok tt, self)
  /\ blendtable self
     = Some {| Blendtable.table_id := 2; Blendtable.filename := "b.png" |}
  /\ str_float (scalefactor self) = "0.5".
Proof.
  intros cs self.
  assert (H : do_calls cs (init "out" "grass.terrain") = (Ok tt, self))
    by reflexivity.
  destruct (last_setter_wins cs "out" "grass.terrain" self H) as [Hb Hs].
  split; [exact H|]. split.
  - rewrite Hb. reflexivity.
  - rewrite Hs. vm_compute. reflexivity.
Defined.

(** X3: [set_scalefactor] touches no attribute but the scale factor. With a
    float it always returns and stores the float as it is; it can only fail
    on an [int], with [OverflowError], and then the object is unchanged. *)
Theorem set_scalefactor_effect (factor : number) (self : t) :
  let r := fst (set_scalefactor factor self) in
  let self' := snd (set_scalefactor factor self) in
  targetdir self' = targetdir self
  /\ filename self' = filename self
  /\ image_files self' = image_files self
  /\ blendtable self' = blendtable self
  /\ layers self' = layers self
  /\ frames self' = frames self
  /\ (forall f, factor = Float f -> r = Ok tt /\ scalefactor self' = f)
  /\ (r = Ok tt -> to_float factor = Ok (scalefactor self'))
  /\ (forall e, r = Raise e ->
        self' = self /\ exn_class e = "OverflowError"
        /\ exists z, factor = Int z).
Proof.
  unfold set_scalefactor, mbind, method_bind, lift.
  destruct factor as [z|f]; simpl.
  - unfold float_of_int.
    destruct (binary_normalize prec emax z 0 false); simpl;
      repeat split; try discriminate; try reflexivity; eauto;
      match goal with
      | H : Raise _ = Raise _ |- _ => now injection H as <-
      end.
  - repeat split; try discriminate; try reflexivity; congruence.
Qed.

(** X4: when the integers written are within the digit limit of [str],
    [dump] returns a text exactly when the blend table is set, whatever
    the images, layers and frames are (none at all, or frames that name
    layers and images never added). A text that [dump] returns comes from
    an object with the blend table set, and begins with the header comment
    and the version line. *)
Theorem dump_succeeds_iff_blendtable (self : t) :
  (ints_within_str_digits self ->
   ((exists text, fst (dump self) = Ok text) <-> blendtable self <> None))
  /\ (forall text,
        fst (dump self) = Ok text ->
        blendtable self <> None
        /\ exists rest,
             text = "# openage terrain definition file" ++ LF ++ LF
                    ++ "version 1" ++ LF ++ LF ++ rest).
Proof.
  rewrite dump_eq. destruct (blendtable self) as [table|]; simpl.
  - split.
    + intros _. split; [discriminate | eauto].
    + intros text [= <-]. split; [discriminate|].
      unfold text, text_of, header.
      eexists. rewrite !append_assoc. reflexivity.
  - split.
    + intros _. split; [intros [text H]; discriminate | congruence].
    + discriminate.
Qed.

Lemma dump_succeeds_iff_blendtable_witness :
  let self := snd (do_calls [Set_blendtable 1 "blend.png";
                             Add_frame 0 9 9 0 0 32 32 0 0]
                            (init "out" "grass.terrain")) in
  ints_within_str_digits self
  /\ fst (dump self)
     = Ok ("# openage terrain definition file" ++ LF ++ LF
           ++ "version 1" ++ LF ++ LF
           ++ LF
           ++ "blendtable 1 blend.png" ++ LF ++ LF
           ++ "scalefactor 1.0" ++ LF ++ LF
           ++ LF
           ++ "frame 0 9 9 0 0 32 32 0 0" ++ LF).
Proof.
  intros self.
  assert (Hw : ints_within_str_digits self) by (repeat constructor).
  split; [exact Hw|].
  destruct (proj2 (proj1 (dump_succeeds_iff_blendtable self) Hw)
              ltac:(discriminate)) as [text H].
  rewrite H. vm_compute in H. injection H as <-. reflexivity.
Defined.

End TerrainFurther.

(** ** Lines of the text *)

Section Counting.

Lemma count_char_append (c : ascii) (a b : string) :
  count_char c (a ++ b) = (count_char c a + count_char c b)%nat.
Proof.
  induction a as [|x a IH]; [reflexivity|].
  rewrite append_cons. cbn [count_char]. rewrite IH. lia.
Qed.

Lemma count_char_all_chars (P : ascii -> bool) (c : ascii) (s : string) :
  P c = false -> all_chars P s = true -> count_char c s = 0%nat.
Proof.
  intros Hc. induction s as [|x s IH]; intros H; [reflexivity|].
  cbn [all_chars] in H. apply andb_true_iff in H as [Hx Hs].
  cbn [count_char]. rewrite (IH Hs).
  destruct (Ascii.eqb_spec x c) as [->|_]; [congruence | reflexivity].
Qed.

Lemma count_LF_str_int (z : Z) : count_char LF_char (str_int z) = 0%nat.
Proof.
  apply (count_char_all_chars numeric_char); [reflexivity|].
  apply numeric_str_int.
Qed.

Lemma count_LF_str_float (f : float) :
  count_char LF_char (str_float f) = 0%nat.
Proof.
  apply (count_char_all_chars numeric_char); [reflexivity|].
  apply numeric_str_float.
Qed.

Lemma count_LF_str_number (x : number) :
  count_char LF_char (str_number x) = 0%nat.
Proof. destruct x; [apply count_LF_str_int | apply count_LF_str_float]. Qed.

Lemma count_char_cat_lines {A} (c : ascii) (line : A -> string)
    (xs : list A) :
  Forall (fun x => count_char c (line x) = 1%nat) xs ->
  count_char c (cat (map line xs)) = length xs.
Proof.
  induction 1 as [|x xs Hx _ IH]; [reflexivity|].
  simpl. rewrite count_char_append, Hx, IH. reflexivity.
Qed.

End Counting.

Section TerrainLines.
Import TerrainMetadata TerrainText History HistoryMore.

Lemma count_LF_clause (name value : string) (b : bool) :
  count_char LF_char name = 0%nat -> count_char LF_char value = 0%nat ->
  count_char LF_char (clause name b value) = 0%nat.
Proof.
  intros Hn Hv. unfold clause. destruct b; [|reflexivity].
  rewrite !count_char_append, Hn, Hv. reflexivity.
Qed.

Lemma count_LF_layer_line (layer : Layer.t) :
  count_char LF_char (layer_line layer) = 1%nat.
Proof.
  unfold layer_line, mode_clause, position_clause, time_per_frame_clause,
    replay_delay_clause.
  rewrite !count_char_append, count_LF_str_int.
  rewrite !count_LF_clause; try reflexivity.
  - destruct (Layer.replay_delay layer); [apply count_LF_str_number|reflexivity].
  - destruct (Layer.time_per_frame layer);
      [apply count_LF_str_number|reflexivity].
  - destruct (Layer.position layer); [apply count_LF_str_int|reflexivity].
  - now destruct (Layer.mode layer) as [[|]|].
Qed.

Lemma count_LF_frame_line (frame : Frame.t) :
  count_char LF_char (frame_line frame) = 1%nat.
Proof.
  unfold frame_line, join, Frame.values. cbn [map String.concat].
  rewrite !count_char_append, !count_LF_str_int. reflexivity.
Qed.

Lemma count_LF_image_line (image : Image.t) :
  count_char LF_char (Image.filename image) = 0%nat ->
  count_char LF_char (image_line image) = 1%nat.
Proof.
  intros H. unfold image_line.
  rewrite !count_char_append, count_LF_str_int, H. reflexivity.
Qed.

(** X5: when no file name contains a line feed, the text that [dump]
    returns has ten lines (header, version, blend table, scale factor and
    the six blank lines around the sections) and one more for each image,
    each layer and each frame. *)
Theorem dump_line_count (self : t) (text : string) :
  filenames_on_one_line self ->
  fst (dump self) = Ok text ->
  count_char LF_char text
  = (10 + length (image_files self) + length (layers self)
        + length (frames self))%nat.
Proof.
  intros [Hi Hb] H. rewrite dump_eq in H.
  destruct (blendtable self) as [table|] eqn:Eb; [|discriminate].
  simpl in H. injection H as <-.
  unfold TerrainText.text, text_of, header, blendtable_line, scalefactor_line.
  rewrite !count_char_append.
  rewrite (count_char_cat_lines _ frame_line)
    by (apply Forall_forall; intros; apply count_LF_frame_line).
  rewrite (count_char_cat_lines _ layer_line)
    by (apply Forall_forall; intros; apply count_LF_layer_line).
  rewrite (count_char_cat_lines _ image_line).
  - rewrite count_LF_str_int, count_LF_str_float, (Hb table eq_refl).
    unfold PyDict.values. rewrite !length_map.
    change (count_char LF_char LF) with 1%nat.
    change (count_char LF_char "# openage terrain definition file")
      with 0%nat.
    change (count_char LF_char "version ") with 0%nat.
    change (count_char LF_char FORMAT_VERSION) with 0%nat.
    change (count_char LF_char "blendtable ") with 0%nat.
    change (count_char LF_char "scalefactor ") with 0%nat.
    change (count_char LF_char " ") with 0%nat.
    lia.
  - eapply List.Forall_impl; [|exact Hi].
    intros image. apply count_LF_image_line.
Qed.

Lemma dump_line_count_witness :
  let self := snd (do_calls example_calls (init "out" "grass.terrain")) in
  filenames_on_one_line self
  /\ fst (dump self) = Ok example_text
  /\ count_char LF_char example_text = 13%nat.
Proof.
  intros self.
  assert (Hn : filenames_on_one_line self).
  { split.
    - repeat constructor.
    - intros table [= <-]. reflexivity. }
  assert (Hd : fst (dump self) = Ok example_text)
    by (vm_compute; reflexivity).
  split; [exact Hn|]. split; [exact Hd|].
  rewrite (dump_line_count self example_text Hn Hd). reflexivity.
Defined.

(** X6: an optional attribute of a layer that is set to a falsy value is
    written like one that was never given: the line of a layer is the line
    of the layer with its falsy attributes replaced by [None]. The falsy
    numbers are the integer zero and the two float zeros. *)
Theorem falsy_attributes_as_unset (layer : Layer.t) :
  (forall out,
     dump_layer out layer = dump_layer out (drop_falsy_attributes layer))
  /\ (forall x,
        number_truthy x = false <->
        x = Int 0 \/ exists s, x = Float (S754_zero s)).
Proof.
  split.
  - intros out. rewrite !dump_layer_line. f_equal.
    unfold layer_line, mode_clause, position_clause, time_per_frame_clause,
      replay_delay_clause, drop_falsy_attributes, drop_falsy. simpl.
    destruct layer as [i m p tp rd]; simpl.
    destruct m as [m|], p as [p|], tp as [tp|], rd as [rd|]; simpl;
      repeat match goal with
             | |- context [int_truthy ?p] => destruct (int_truthy p) eqn:?
             | |- context [number_truthy ?x] =>
                 destruct (number_truthy x) eqn:?
             end; simpl;
      rewrite ?Heqb, ?Heqb0, ?Heqb1; reflexivity.
  - intros [z|f]; simpl; unfold int_truthy.
    + destruct (Z.eqb_spec z 0) as [->|Hz]; simpl; split;
        try tauto; try discriminate.
      * intros [[= H]|[s H]]; [tauto | discriminate].
    + destruct f; simpl; split; try discriminate; eauto;
        intros [H|[s' H]]; discriminate.
Qed.

End TerrainLines.

(** ** Adding and looking up, names, repeated calls *)

Section TerrainCalls.
Import TerrainMetadata TerrainText History HistoryMore.

(** X7: after [add_image] the dictionary of images holds the new record
    under its identifier and every other identifier as before; the
    identifier keeps its place when it was present and goes to the end
    when it is new, and no other attribute changes. *)
Theorem add_image_then_lookup (img_id : Z) (name : string) (self : t) :
  let self' := snd (add_image img_id name self) in
  fst (add_image img_id name self) = Ok tt
  /\ PyDict.get img_id (image_files self')
     = Some {| Image.image_id := img_id; Image.filename := name |}
  /\ (forall j, j <> img_id ->
        PyDict.get j (image_files self') = PyDict.get j (image_files self))
  /\ PyDict.keys (image_files self')
     = (if mem img_id (PyDict.keys (image_files self))
        then PyDict.keys (image_files self)
        else (PyDict.keys (image_files self) ++ [img_id])%list)
  /\ layers self' = layers self
  /\ frames self' = frames self
  /\ blendtable self' = blendtable self
  /\ scalefactor self' = scalefactor self.
Proof.
  simpl. repeat split.
  - apply get_setitem_eq.
  - intros j Hj. now apply get_setitem_ne.
  - apply keys_setitem.
Qed.

Lemma add_image_then_lookup_witness :
  let self := snd (do_calls [Add_image 3 "a.png"; Add_image 4 "b.png"]
                            (init "out" "grass.terrain")) in
  4 <> 3
  /\ PyDict.get 4 (image_files (snd (add_image 3 "c.png" self)))
     = Some {| Image.image_id := 4; Image.filename := "b.png" |}.
Proof.
  intros self. split; [discriminate|].
  rewrite (proj1 (proj2 (proj2 (add_image_then_lookup 3 "c.png" self)))
             4 ltac:(discriminate)).
  reflexivity.
Defined.

(** X8: after [add_layer] the dictionary of layers holds the new record
    under its identifier and every other identifier as before; the
    identifier keeps its place when it was present and goes to the end
    when it is new, and no other attribute changes. *)
Theorem add_layer_then_lookup (layer_id : Z) (mode : option LayerMode)
    (position : option Z) (time_per_frame replay_delay : option number)
    (self : t) :
  let self' :=
    snd (add_layer layer_id mode position time_per_frame replay_delay self) in
  fst (add_layer layer_id mode position time_per_frame replay_delay self)
    = Ok tt
  /\ PyDict.get layer_id (layers self')
     = Some {| Layer.layer_id := layer_id; Layer.mode := mode;
               Layer.position := position;
               Layer.time_per_frame := time_per_frame;
               Layer.replay_delay := replay_delay |}
  /\ (forall j, j <> layer_id ->
        PyDict.get j (layers self') = PyDict.get j (layers self))
  /\ PyDict.keys (layers self')
     = (if mem layer_id (PyDict.keys (layers self))
        then PyDict.keys (layers self)
        else (PyDict.keys (layers self) ++ [layer_id])%list)
  /\ image_files self' = image_files self
  /\ frames self' = frames self
  /\ blendtable self' = blendtable self
  /\ scalefactor self' = scalefactor self.
Proof.
  simpl. repeat split.
  - apply get_setitem_eq.
  - intros j Hj. now apply get_setitem_ne.
  - apply keys_setitem.
Qed.

Lemma add_layer_then_lookup_witness :
  let self := snd (do_calls [Add_layer 3 (Some OFF) None None None;
                             Add_layer 4 None (Some 1) None None]
                            (init "out" "grass.terrain")) in
  4 <> 3
  /\ PyDict.get 4 (layers (snd (add_layer 3 (Some LOOP) None None None self)))
     = Some {| Layer.layer_id := 4; Layer.mode := None;
               Layer.position := Some 1; Layer.time_per_frame := None;
               Layer.replay_delay := None |}.
Proof.
  intros self. split; [discriminate|].
  rewrite (proj1 (proj2 (proj2
             (add_layer_then_lookup 3 (Some LOOP) None None None self)))
             4 ltac:(discriminate)).
  reflexivity.
Defined.




(** X10: every method but [add_frame] can be repeated without further
    effect: two equal calls in a row leave the object as one call does,
    and raise when one call does. Two equal calls of [add_frame] leave one
    frame more than one call. *)
Theorem repeated_call (c : call) (self : t) :
  (is_add_frame c = false -> do_calls [c; c] self = do_calls [c] self)
  /\ (is_add_frame c = true ->
      fst (do_calls [c; c] self) = Ok tt
      /\ length (frames (snd (do_calls [c; c] self)))
         = S (length (frames (snd (do_calls [c] self))))).
Proof.
  split.
  - destruct c as [i f|i m p tp rd|a b c d e f g h i|i f|x];
      try discriminate; intros _; cbn [do_calls do_call];
      unfold mbind, method_bind.
    + simpl. now rewrite setitem_setitem.
    + simpl. now rewrite setitem_setitem.
    + reflexivity.
    + unfold set_scalefactor, mbind, method_bind, lift.
      destruct (to_float x) as [fl|e]; reflexivity.
  - destruct c as [i f|i m p tp rd|a b c d e f g h i|i f|x];
      try discriminate; intros _. simpl. split; [reflexivity|].
    rewrite !length_app. simpl. lia.
Qed.

Lemma repeated_call_witness :
  (is_add_frame (Add_image 0 "0.png") = false
   /\ do_calls [Add_image 0 "0.png"; Add_image 0 "0.png"]
               (init "out" "grass.terrain")
      = do_calls [Add_image 0 "0.png"] (init "out" "grass.terrain"))
  /\ (is_add_frame (Add_frame 0 0 0 0 0 32 32 0 0) = true
      /\ length (frames (snd (do_calls [Add_frame 0 0 0 0 0 32 32 0 0;
                                        Add_frame 0 0 0 0 0 32 32 0 0]
                                       (init "out" "grass.terrain"))))
         = 2%nat).
Proof.
  split; (split; [reflexivity|]).
  - exact (proj1 (repeated_call (Add_image 0 "0.png")
                    (init "out" "grass.terrain")) eq_refl).
  - rewrite (proj2 (proj2 (repeated_call (Add_frame 0 0 0 0 0 32 32 0 0)
                             (init "out" "grass.terrain")) eq_refl)).
    reflexivity.
Defined.

End TerrainCalls.

(** ** Further properties of the texture constructor *)

Section TextureFurther.
Import Texture TextureSpec TextureMore.
Context {collaborators : Collaborators}.
Implicit Types (frame : SourceFrame) (img subtex : TextureImage)
  (palettes : option (gmap Z ColorTable)) (cutter : Cutter).

Lemma init_main_frames (input : input_data) (main_frames : list SourceFrame)
    palettes (custom_cutter : option Cutter) :
  main_frames_of input = Some main_frames ->
  init input palettes custom_cutter
  = Py.bind (main_frames_loop palettes custom_cutter main_frames [])
            (fun frames => Ok (new frames)).
Proof.
  destruct input; simpl; intros H; try discriminate;
    injection H as ->; reflexivity.
Qed.

Lemma main_frames_loop_cut palettes cutter (fs : list SourceFrame)
    (acc out : list TextureImage) :
  main_frames_loop palettes (Some cutter) fs acc = Ok out ->
  exists imgs,
    Forall2 (subtexture_of palettes) fs imgs
    /\ out = (acc ++ flat_map (cut cutter) imgs)%list.
Proof.
  revert acc. induction fs as [|f fs IH]; intros acc H.
  - injection H as <-. exists []. split; [constructor|].
    simpl. now rewrite app_nil_r.
  - simpl in H.
    destruct (main_palette_of palettes f) as [mp|e] eqn:Hp; [|discriminate].
    cbn [Py.bind] in H. unfold _to_subtextures in H.
    destruct (TextureImage_init (get_picture_data f mp)
                (Some (get_hotspot f))) as [img|e] eqn:Hi; [|discriminate].
    cbn [Py.bind] in H. rewrite for_in_snoc in H.
    apply IH in H as [imgs [HF ->]].
    exists (img :: imgs). split.
    + constructor; [|exact HF].
      exists mp. apply TextureImage_init_carries in Hi.
      apply main_palette_of_frame in Hp. tauto.
    + simpl. now rewrite <- app_assoc.
Qed.

(** X11: with a cutter that passes the test [if custom_cutter:], the
    frames of a texture built from a collection of frames are the pieces
    that the cutter returns for the image of each frame, all pieces of a
    frame together and in the order of the frames; the image of a frame
    carries the raster that the frame produces from its own palette (none
    without palette number, the array of [palettes[n]] for the number
    [n]) and the frame's hotspot. *)
Theorem cut_pieces_in_frame_order (input : input_data)
    (main_frames : list SourceFrame) palettes cutter (texture : Texture.t) :
  main_frames_of input = Some main_frames ->
  init input palettes (Some cutter) = Ok texture ->
  exists imgs,
    Forall2 (subtexture_of palettes) main_frames imgs
    /\ frames texture = flat_map (cut cutter) imgs.
Proof.
  intros Hm Hi. rewrite (init_main_frames _ _ _ _ Hm) in Hi.
  destruct (main_frames_loop palettes (Some cutter) main_frames [])
    as [out|e] eqn:Hl; [|discriminate].
  simpl in Hi. injection Hi as <-.
  apply main_frames_loop_cut in Hl as [imgs [HF ->]].
  exists imgs. now split.
Qed.

Lemma alphamasks_images_spec (ms : list AlphaMask)
    (out : list TextureImage) :
  alphamasks_images ms = Ok out -> Forall2 mask_image_of ms out.
Proof.
  revert out. induction ms as [|m ms IH]; intros out H.
  - injection H as <-. constructor.
  - simpl in H.
    destruct (TextureImage_init (mask_get_picture_data m)
                (Some (0, TILE_HALFSIZE_y))) as [img|e] eqn:Hi;
      [|discriminate].
    cbn [Py.bind] in H.
    destruct (alphamasks_images ms) as [imgs|e]; [|discriminate].
    cbn [Py.bind] in H. injection H as <-.
    constructor; [|now apply IH].
    apply TextureImage_init_carries in Hi. exact Hi.
Qed.

(** X12: a texture built from a blending mode holds one image per alpha
    mask, in the order of the masks, each with the raster of its mask and
    the hotspot [(0, TILE_HALFSIZE["y"])]; the palettes and the cutter are
    not used. *)
Theorem blending_mode_images (alphamasks : list AlphaMask) palettes
    (custom_cutter : option Cutter) :
  init (BlendingMode alphamasks) palettes custom_cutter
    = init (BlendingMode alphamasks) None None
  /\ forall texture,
       init (BlendingMode alphamasks) palettes custom_cutter = Ok texture ->
       length (frames texture) = length alphamasks
       /\ Forall2 mask_image_of alphamasks (frames texture).
Proof.
  split; [reflexivity|]. intros texture H. simpl in H.
  destruct (alphamasks_images alphamasks) as [out|e] eqn:Ha; [|discriminate].
  simpl in H. injection H as <-. simpl.
  apply alphamasks_images_spec in Ha.
  split; [|exact Ha]. symmetry. clear -Ha.
  induction Ha; simpl; congruence.
Qed.

(** X13: [TextureImage] accepts a PIL image or an array with at least two
    dimensions: the width is the second dimension and the height the first,
    the data is the raster, and the hotspot is the one given, or [(0, 0)]
    when none is given. An object of another type raises [ValueError], and
    an array with fewer than two dimensions raises [IndexError]. *)
Theorem TextureImage_init_cases (picture_data : picture)
    (hotspot : option (Z * Z)) :
  (forall img,
     TextureImage_init picture_data hotspot = Ok img <->
     exists a w h,
       raster picture_data = Some a
       /\ nth_error (shape a) 1 = Some w
       /\ nth_error (shape a) 0 = Some h
       /\ img = {| width := w; height := h;
                   Texture.hotspot :=
                     match hotspot with
                     | Some p => p
                     | None => (0, 0)
                     end;
                   data := a |})
  /\ (raster picture_data = None ->
      raises (TextureImage_init picture_data hotspot) "ValueError")
  /\ (forall a,
        raster picture_data = Some a ->
        (length (shape a) < 2)%nat ->
        raises (TextureImage_init picture_data hotspot) "IndexError").
Proof.
  assert (Hok : forall a img,
            TextureImage_of_array a hotspot = Ok img <->
            exists w h,
              nth_error (shape a) 1 = Some w
              /\ nth_error (shape a) 0 = Some h
              /\ img = {| width := w; height := h;
                          Texture.hotspot :=
                            match hotspot with
                            | Some p => p
                            | None => (0, 0)
                            end;
                          data := a |}).
  { intros a img. unfold TextureImage_of_array, tuple_item.
    destruct (nth_error (shape a) 1) as [w|];
      destruct (nth_error (shape a) 0) as [h|]; cbn [Py.bind].
    - split.
      + intros [= <-]. now exists w, h.
      + intros (w' & h' & [= <-] & [= <-] & ->). reflexivity.
    - split; [discriminate|]. intros (w' & h' & _ & H & _). discriminate.
    - split; [discriminate|]. intros (w' & h' & H & _). discriminate.
    - split; [discriminate|]. intros (w' & h' & H & _). discriminate. }
  assert (Herr : forall a,
            (length (shape a) < 2)%nat ->
            raises (TextureImage_of_array a hotspot) "IndexError").
  { intros a Hl. unfold TextureImage_of_array, tuple_item.
    destruct (nth_error (shape a) 1) as [w|] eqn:E.
    - assert (nth_error (shape a) 1 <> None) as E' by congruence.
      apply nth_error_Some in E'. lia.
    - cbn [Py.bind]. eexists. split; reflexivity. }
  assert (Harr : forall a,
            (forall img,
               TextureImage_of_array a hotspot = Ok img <->
               exists a' w h,
                 Some a = Some a'
                 /\ nth_error (shape a') 1 = Some w
                 /\ nth_error (shape a') 0 = Some h
                 /\ img = {| width := w; height := h;
                             Texture.hotspot :=
                               match hotspot with
                               | Some p => p
                               | None => (0, 0)
                               end;
                             data := a' |})
            /\ (Some a = None ->
                raises (TextureImage_of_array a hotspot) "ValueError")
            /\ (forall a',
                  Some a = Some a' ->
                  (length (shape a') < 2)%nat ->
                  raises (TextureImage_of_array a hotspot) "IndexError")).
  { intros a. split; [|split].
    - intros img. split.
      + intros H. apply Hok in H as (w & h & H). exists a, w, h. tauto.
      + intros (a' & w & h & [= <-] & H). apply Hok. eauto.
    - discriminate.
    - intros a' [= <-]. apply Herr. }
  unfold TextureImage_init, raster.
  destruct picture_data as [im|a|ty].
  - destruct (String.eqb (Image_mode im) "RGBA"); cbn [negb]; apply Harr.
  - apply Harr.
  - split; [|split].
    + intros img. split; [discriminate|].
      intros (a & w & h & H & _). discriminate.
    + intros _. eexists. split; reflexivity.
    + discriminate.
Qed.

Lemma main_frames_loop_no_palette palettes (custom_cutter : option Cutter)
    (fs : list SourceFrame) (acc : list TextureImage) :
  Forall (fun frame => get_palette_number frame = None) fs ->
  main_frames_loop palettes custom_cutter fs acc
  = main_frames_loop None custom_cutter fs acc.
Proof.
  intros H. revert acc. induction H as [|f fs Hf _ IH]; intros acc;
    [reflexivity|].
  simpl. unfold main_palette_of. rewrite Hf. cbn [Py.bind].
  destruct (_to_subtextures f None custom_cutter); [|reflexivity].
  cbn [Py.bind]. apply IH.
Qed.

(** X14: the palettes are consulted only for frames that report a palette
    number: for a collection in which no frame reports one, the constructor
    gives the same result whatever palettes are passed, also with none. *)
Theorem palettes_unused_without_palette_numbers (input : input_data)
    (main_frames : list SourceFrame) palettes
    (custom_cutter : option Cutter) :
  main_frames_of input = Some main_frames ->
  Forall (fun frame => get_palette_number frame = None) main_frames ->
  init input palettes custom_cutter = init input None custom_cutter.
Proof.
  intros Hm Hf. rewrite !(init_main_frames _ _ _ _ Hm).
  now rewrite main_frames_loop_no_palette.
Qed.

Lemma main_frames_loop_failure palettes (custom_cutter : option Cutter)
    frame (after : list SourceFrame) (acc : list TextureImage) (e : exn) :
  Py.bind (main_palette_of palettes frame)
          (fun main_palette =>
             _to_subtextures frame main_palette custom_cutter) = Raise e ->
  main_frames_loop palettes custom_cutter (frame :: after) acc = Raise e.
Proof.
  intros He. cbn [main_frames_loop].
  destruct (main_palette_of palettes frame) as [mp|e']; cbn [Py.bind] in *.
  - rewrite He. reflexivity.
  - injection He as ->. reflexivity.
Qed.

(** X15: the constructor stops at the first frame that fails: when the
    frames before a frame are converted without error and the frame's
    palette lookup or its conversion raises, the constructor raises the
    same exception, whatever frames follow. *)
Theorem first_failing_frame_decides (input : input_data)
    (before after : list SourceFrame) frame palettes
    (custom_cutter : option Cutter) (frames : list TextureImage)
    (e : exn) :
  main_frames_of input = Some (before ++ frame :: after)%list ->
  main_frames_loop palettes custom_cutter before [] = Ok frames ->
  Py.bind (main_palette_of palettes frame)
          (fun main_palette =>
             _to_subtextures frame main_palette custom_cutter) = Raise e ->
  init input palettes custom_cutter = Raise e.
Proof.
  intros Hm Hb He. rewrite (init_main_frames _ _ _ _ Hm).
  rewrite main_frames_loop_app, Hb. cbn [Py.bind].
  now rewrite (main_frames_loop_failure _ _ _ _ _ e He).
Qed.

(** X16: when no palettes are passed, a frame that reports a palette
    number makes the constructor raise the [TypeError] of subscripting
    [None], provided the frames before it were converted without error. *)
Theorem palette_number_without_palettes (input : input_data)
    (before after : list SourceFrame) frame (n : Z)
    (custom_cutter : option Cutter) (frames : list TextureImage) :
  main_frames_of input = Some (before ++ frame :: after)%list ->
  get_palette_number frame = Some n ->
  main_frames_loop None custom_cutter before [] = Ok frames ->
  init input None custom_cutter
  = Raise (TypeError "'NoneType' object is not subscriptable").
Proof.
  intros Hm Hn Hb. rewrite (init_main_frames _ _ _ _ Hm).
  rewrite main_frames_loop_app, Hb. cbn [Py.bind].
  rewrite (main_frames_loop_failure _ _ _ _ _
             (TypeError "'NoneType' object is not subscriptable"));
    [reflexivity|].
  unfold main_palette_of. now rewrite Hn.
Qed.

(** X17: a texture that was just built has no packing hints, no
    compression parameters, no image data and no metadata:
    [get_cache_params] returns a pair of [None] and [get_metadata] returns
    [None]. *)
Theorem fresh_texture_has_no_cache (input : input_data) palettes
    (custom_cutter : option Cutter) (texture : Texture.t) :
  init input palettes custom_cutter = Ok texture ->
  get_cache_params texture = (None, None)
  /\ get_metadata texture = None
  /\ image_data texture = None.
Proof.
  intros H.
  assert (E : exists fs, texture = new fs).
  { destruct input as [fs|fs|fs|ms|ty]; simpl in H;
      try discriminate;
      match type of H with
      | Py.bind ?r _ = _ => destruct r as [out|e]; [|discriminate]
      end; simpl in H; injection H as <-; eauto. }
  destruct E as [fs ->]. now repeat split.
Qed.

End TextureFurther.

(** *** The further properties on sample inputs *)

Section TextureFurtherSamples.
Import Texture TextureSpec TextureMore.

Lemma cut_pieces_in_frame_order_witness :
  main_frames_of (SMP [indexed_frame; pil_frame])
    = Some [indexed_frame; pil_frame]
  /\ init (SMP [indexed_frame; pil_frame]) (Some sample_palettes)
          (Some doubling_cutter)
     = Ok (new [ {| width := 3; height := 1; hotspot := (6, 7);
                    data := [[10; 20; 30]] : @ndarray sample |};
                 {| width := 3; height := 1; hotspot := (6, 7);
                    data := [[10; 20; 30]] : @ndarray sample |};
                 {| width := 2; height := 1; hotspot := (0, 1);
                    data := [[7; 8]] : @ndarray sample |};
                 {| width := 2; height := 1; hotspot := (0, 1);
                    data := [[7; 8]] : @ndarray sample |} ])
  /\ exists imgs,
       Forall2 (subtexture_of (Some sample_palettes))
               [indexed_frame; pil_frame] imgs
       /\ frames (new [ {| width := 3; height := 1; hotspot := (6, 7);
                           data := [[10; 20; 30]] : @ndarray sample |};
                        {| width := 3; height := 1; hotspot := (6, 7);
                           data := [[10; 20; 30]] : @ndarray sample |};
                        {| width := 2; height := 1; hotspot := (0, 1);
                           data := [[7; 8]] : @ndarray sample |};
                        {| width := 2; height := 1; hotspot := (0, 1);
                           data := [[7; 8]] : @ndarray sample |} ])
          = flat_map (cut doubling_cutter) imgs.
Proof.
  split; [reflexivity|]. split; [vm_compute; reflexivity|].
  exact (cut_pieces_in_frame_order (SMP [indexed_frame; pil_frame])
           [indexed_frame; pil_frame] (Some sample_palettes)
           doubling_cutter _ eq_refl eq_refl).
Defined.

Lemma blending_mode_images_witness :
  exists texture,
    init (BlendingMode [sample_mask; sample_mask]) (Some ∅)
         (Some empty_cutter) = Ok texture
    /\ length (frames texture) = 2%nat
    /\ Forall2 mask_image_of [sample_mask; sample_mask] (frames texture).
Proof.
  eexists. split; [reflexivity|].
  exact (proj2 (blending_mode_images [sample_mask; sample_mask] (Some ∅)
                  (Some empty_cutter)) _ eq_refl).
Defined.

Lemma TextureImage_init_cases_witness :
  raster (@Object sample "<class 'str'>") = None
  /\ raises (TextureImage_init (@Object sample "<class 'str'>") None)
            "ValueError".
Proof.
  split; [reflexivity|].
  exact (proj1 (proj2 (TextureImage_init_cases
                         (@Object sample "<class 'str'>") None)) eq_refl).
Defined.

Lemma palettes_unused_without_palette_numbers_witness :
  main_frames_of (SLP [plain_frame; pil_frame])
    = Some [plain_frame; pil_frame]
  /\ Forall (fun frame => get_palette_number frame = None)
            [plain_frame; pil_frame]
  /\ init (SLP [plain_frame; pil_frame]) (Some ∅) None
     = init (SLP [plain_frame; pil_frame]) None None.
Proof.
  split; [reflexivity|].
  assert (H : Forall (fun frame => get_palette_number frame = None)
                     [plain_frame; pil_frame])
    by (repeat constructor).
  split; [exact H|].
  exact (palettes_unused_without_palette_numbers
           (SLP [plain_frame; pil_frame]) [plain_frame; pil_frame]
           (Some ∅) None eq_refl H).
Defined.

Lemma first_failing_frame_decides_witness :
  main_frames_of (SLP [plain_frame; broken_frame; palette_frame])
    = Some ([plain_frame] ++ broken_frame :: [palette_frame])%list
  /\ init (SLP [plain_frame; broken_frame; palette_frame]) None None
     = Raise (ValueError ("Texture image must be created from PIL Image "
                          ++ "or numpy array, not '<class 'str'>'")).
Proof.
  split; [reflexivity|].
  exact (first_failing_frame_decides
           (SLP [plain_frame; broken_frame; palette_frame])
           [plain_frame] [palette_frame] broken_frame None None _ _
           eq_refl eq_refl eq_refl).
Defined.

Lemma palette_number_without_palettes_witness :
  main_frames_of (SMX [plain_frame; palette_frame])
    = Some ([plain_frame] ++ palette_frame :: [])%list
  /\ get_palette_number palette_frame = Some 5
  /\ init (SMX [plain_frame; palette_frame]) None None
     = Raise (TypeError "'NoneType' object is not subscriptable").
Proof.
  split; [reflexivity|]. split; [reflexivity|].
  exact (palette_number_without_palettes
           (SMX [plain_frame; palette_frame]) [plain_frame] []
           palette_frame 5 None _ eq_refl eq_refl eq_refl).
Defined.

Lemma fresh_texture_has_no_cache_witness :
  exists texture,
    init (SLP [plain_frame]) None None = Ok texture
    /\ get_cache_params texture = (None, None)
    /\ get_metadata texture = None.
Proof.
  eexists. split; [reflexivity|].
  destruct (fresh_texture_has_no_cache (SLP [plain_frame]) None None _
              eq_refl) as (H1 & H2 & _).
  now split.
Defined.

End TextureFurtherSamples.

(** ** The range of [float] on integers *)

Section FloatRange.

Lemma digits_shr_1 (s : shr_record) :
  Zdigits2 (shr_m (shr_1 s)) = Z.max 0 (Zdigits2 (shr_m s) - 1).
Proof.
  destruct s as [[|p|p] r sb]; simpl; try reflexivity;
    destruct p; simpl; lia.
Qed.

Lemma nonneg_shr_1 (s : shr_record) : 0 <= shr_m s -> 0 <= shr_m (shr_1 s).
Proof.
  destruct s as [[|p|p] r sb]; simpl; try lia; destruct p; simpl; lia.
Qed.

Lemma iter_pos_invariant {A} (f : A -> A) (P : A -> Prop) :
  (forall x, P x -> P (f x)) -> forall p x, P x -> P (SpecFloat.iter_pos f p x).
Proof.
  intros Hf. induction p as [p IH|p IH|]; intros x Hx; simpl; auto.
Qed.

Lemma digits_iter_shr_1 (p : positive) (s : shr_record) :
  Zdigits2 (shr_m (SpecFloat.iter_pos shr_1 p s))
  = Z.max 0 (Zdigits2 (shr_m s) - Z.pos p).
Proof.
  revert s. induction p as [p IH|p IH|]; intros s; simpl.
  - rewrite !IH, digits_shr_1. lia.
  - rewrite !IH. lia.
  - apply digits_shr_1.
Qed.

Lemma digits2_pos_bound (m : positive) :
  2 ^ (Z.pos (digits2_pos m) - 1) <= Z.pos m < 2 ^ Z.pos (digits2_pos m).
Proof.
  induction m as [m IH|m IH|]; simpl digits2_pos.
  - rewrite Pos2Z.inj_succ.
    replace (Z.succ (Z.pos (digits2_pos m)) - 1)
      with (Z.succ (Z.pos (digits2_pos m) - 1)) by lia.
    rewrite !Z.pow_succ_r by lia. lia.
  - rewrite Pos2Z.inj_succ.
    replace (Z.succ (Z.pos (digits2_pos m)) - 1)
      with (Z.succ (Z.pos (digits2_pos m) - 1)) by lia.
    rewrite !Z.pow_succ_r by lia. lia.
  - simpl. lia.
Qed.

Lemma digits2_pos_large (m : positive) :
  2 ^ 1024 <= Z.pos m -> 1025 <= Z.pos (digits2_pos m).
Proof.
  intros H. destruct (digits2_pos_bound m) as [_ Hu].
  destruct (Z.le_gt_cases 1025 (Z.pos (digits2_pos m))) as [|Hlt]; [assumption|].
  assert (2 ^ Z.pos (digits2_pos m) <= 2 ^ 1024)
    by (apply Z.pow_le_mono_r; lia).
  lia.
Qed.

Lemma float_of_int_pos_overflow (m : positive) :
  2 ^ 1024 <= Z.pos m ->
  forall s, binary_round prec emax s m 0 = S754_infinity s.
Proof.
  intros Hm s. pose proof (digits2_pos_large m Hm) as Hd.
  unfold binary_round.
  assert (Hf : fexp prec emax (Z.pos (digits2_pos m) + 0)
               = Z.pos (digits2_pos m) - 53).
  { unfold fexp, emin, prec, emax. lia. }
  rewrite Hf. unfold shl_align.
  destruct (Z.pos (digits2_pos m) - 53 - 0) as [|q|q] eqn:Eq; try lia.
  unfold binary_round_aux, shr_fexp. cbn [Zdigits2]. rewrite Hf.
  cbn [shr_record_of_loc].
  replace (Z.pos (digits2_pos m) - 53 - 0) with (Z.pos q). 
  cbn [shr].
  set (mrs' := SpecFloat.iter_pos shr_1 q _).
  assert (Hd1 : Zdigits2 (shr_m mrs') = 53).
  { unfold mrs'. rewrite digits_iter_shr_1. cbn [shr_m Zdigits2]. lia. }
  assert (Hn1 : 0 <= shr_m mrs').
  { unfold mrs'. apply (iter_pos_invariant shr_1 (fun x => 0 <= shr_m x)).
    - apply nonneg_shr_1.
    - simpl. lia. }
  destruct (shr_m mrs') as [|q0|q0] eqn:E0; [discriminate Hd1| |lia].
  assert (Hr : exists q1,
             round_nearest_even (Z.pos q0) (loc_of_shr_record mrs')
             = Z.pos q1).
  { unfold round_nearest_even.
    destruct (loc_of_shr_record mrs') as [|[| |]];
      try destruct (Z.even (Z.pos q0)); eexists; reflexivity. }
  destruct Hr as [q1 ->]. cbn [Zdigits2].
  assert (He : fexp prec emax (Z.pos (digits2_pos q1) + (0 + Z.pos q))
               - (0 + Z.pos q) = Z.pos (digits2_pos q1) - 53).
  { unfold fexp, emin, prec, emax. lia. }
  rewrite He. unfold shr.
  destruct (Z.pos (digits2_pos q1) - 53) as [|p2|p2] eqn:E2.
  - cbn [shr_m].
    replace (0 + Z.pos q <=? emax - prec) with false; [reflexivity|].
    symmetry. apply Z.leb_gt. unfold emax, prec. lia.
  - set (mrs2 := SpecFloat.iter_pos shr_1 p2 _).
    assert (Hd2 : Zdigits2 (shr_m mrs2) = 53).
    { unfold mrs2. rewrite digits_iter_shr_1. cbn [shr_m Zdigits2]. lia. }
    assert (Hn2 : 0 <= shr_m mrs2).
    { unfold mrs2. apply (iter_pos_invariant shr_1 (fun x => 0 <= shr_m x)).
      - apply nonneg_shr_1.
      - simpl. lia. }
    destruct (shr_m mrs2) as [|q3|q3]; [discriminate Hd2| |lia].
    replace (0 + Z.pos q + Z.pos p2 <=? emax - prec) with false;
      [reflexivity|].
    symmetry. apply Z.leb_gt. unfold emax, prec. lia.
  - cbn [shr_m].
    replace (0 + Z.pos q <=? emax - prec) with false; [reflexivity|].
    symmetry. apply Z.leb_gt. unfold emax, prec. lia.
Qed.

Lemma float_of_int_raises (z : Z) :
  2 ^ 1024 <= Z.abs z ->
  float_of_int z = Raise (OverflowError "int too large to convert to float").
Proof.
  intros H. unfold float_of_int, binary_normalize.
  destruct z as [|m|m].
  - simpl in H. lia.
  - now rewrite float_of_int_pos_overflow.
  - now rewrite float_of_int_pos_overflow.
Qed.

Lemma digits2_pos_succ (q : positive) :
  (Z.pos (digits2_pos (q + 1)) <= Z.pos (digits2_pos q) + 1).
Proof.
  rewrite Pos.add_1_r.
  induction q as [q IH|q IH|]; simpl; rewrite ?Pos2Z.inj_succ; lia.
Qed.

Lemma digits2_pos_iter_xO (p m : positive) :
  digits2_pos (Pos.iter xO m p) = (digits2_pos m + p)%positive.
Proof.
  induction p as [|p IH] using Pos.peano_ind.
  - simpl. lia.
  - rewrite Pos.iter_succ. simpl. rewrite IH. lia.
Qed.

Lemma digits2_pos_small (m : positive) :
  Z.pos m < 2 ^ 1023 -> Z.pos (digits2_pos m) <= 1023.
Proof.
  intros H. destruct (digits2_pos_bound m) as [Hl _].
  destruct (Z.le_gt_cases (Z.pos (digits2_pos m)) 1023) as [|Hgt]; [assumption|].
  assert (2 ^ 1023 <= 2 ^ (Z.pos (digits2_pos m) - 1))
    by (apply Z.pow_le_mono_r; lia).
  lia.
Qed.

Lemma binary_round_finite (m : positive) (s : bool) :
  Z.pos m < 2 ^ 1023 ->
  exists m' e', binary_round prec emax s m 0 = S754_finite s m' e'.
Proof.
  intros Hm. pose proof (digits2_pos_small m Hm) as Hd.
  unfold binary_round.
  assert (Hf : fexp prec emax (Z.pos (digits2_pos m) + 0)
               = Z.pos (digits2_pos m) - 53).
  { unfold fexp, emin, prec, emax. lia. }
  rewrite Hf. unfold shl_align.
  destruct (Z.pos (digits2_pos m) - 53 - 0) as [|q|q] eqn:Eq.
  - (* exactly 53 digits *)
    unfold binary_round_aux, shr_fexp. cbn [Zdigits2]. rewrite Hf.
    rewrite Eq. cbn [shr_record_of_loc shr shr_m loc_of_shr_record
                     round_nearest_even Zdigits2].
    rewrite Hf, Eq. cbn [shr shr_m].
    replace (0 <=? emax - prec) with true by reflexivity. eauto.
  - (* more than 53 digits: shift right, round *)
    unfold binary_round_aux, shr_fexp. cbn [Zdigits2]. rewrite Hf.
    cbn [shr_record_of_loc]. rewrite Eq. cbn [shr].
    set (mrs' := SpecFloat.iter_pos shr_1 q _).
    assert (Hd1 : Zdigits2 (shr_m mrs') = 53).
    { unfold mrs'. rewrite digits_iter_shr_1. cbn [shr_m Zdigits2]. lia. }
    assert (Hn1 : 0 <= shr_m mrs').
    { unfold mrs'. apply (iter_pos_invariant shr_1 (fun x => 0 <= shr_m x)).
      - apply nonneg_shr_1.
      - simpl. lia. }
    destruct (shr_m mrs') as [|q0|q0] eqn:E0; [discriminate Hd1| |lia].
    cbn [Zdigits2] in Hd1.
    assert (Hr : exists q1,
               round_nearest_even (Z.pos q0) (loc_of_shr_record mrs')
               = Z.pos q1
               /\ 53 <= Z.pos (digits2_pos q1) <= 54).
    { pose proof (digits2_pos_succ q0) as Hs.
      unfold round_nearest_even.
      destruct (loc_of_shr_record mrs') as [|[| |]];
        try destruct (Z.even (Z.pos q0));
        first [ exists q0; split; [reflexivity | lia]
              | exists (q0 + 1)%positive; split; [reflexivity|];
                split; [|lia] ].
      all: destruct (digits2_pos_bound q0) as [Hl _];
        destruct (digits2_pos_bound (q0 + 1)) as [_ Hu];
        destruct (Z.le_gt_cases 53 (Z.pos (digits2_pos (q0 + 1))))
          as [|Hlt]; [assumption|];
        assert (2 ^ Z.pos (digits2_pos (q0 + 1)) <= 2 ^ 52)
          by (apply Z.pow_le_mono_r; lia);
        rewrite Hd1 in Hl; change (53 - 1) with 52 in Hl; lia. }
    destruct Hr as [q1 [-> Hq1]]. cbn [Zdigits2].
    assert (He : fexp prec emax (Z.pos (digits2_pos q1) + (0 + Z.pos q))
                 - (0 + Z.pos q) = Z.pos (digits2_pos q1) - 53).
    { unfold fexp, emin, prec, emax. lia. }
    rewrite He. unfold shr.
    destruct (Z.pos (digits2_pos q1) - 53) as [|p2|p2] eqn:E2.
    + cbn [shr_m].
      replace (0 + Z.pos q <=? emax - prec) with true; [eauto|].
      symmetry. apply Z.leb_le. unfold emax, prec. lia.
    + set (mrs2 := SpecFloat.iter_pos shr_1 p2 _).
      assert (Hd2 : Zdigits2 (shr_m mrs2) = 53).
      { unfold mrs2. rewrite digits_iter_shr_1. cbn [shr_m Zdigits2]. lia. }
      assert (Hn2 : 0 <= shr_m mrs2).
      { unfold mrs2.
        apply (iter_pos_invariant shr_1 (fun x => 0 <= shr_m x)).
        - apply nonneg_shr_1.
        - simpl. lia. }
      destruct (shr_m mrs2) as [|q3|q3]; [discriminate Hd2| |lia].
      replace (0 + Z.pos q + Z.pos p2 <=? emax - prec) with true; [eauto|].
      symmetry. apply Z.leb_le. unfold emax, prec. lia.
    + lia.
  - (* fewer than 53 digits: shift left, exact *)
    unfold binary_round_aux, shr_fexp. cbn [Zdigits2].
    rewrite digits2_pos_iter_xO.
    assert (Hz : fexp prec emax
                   (Z.pos (digits2_pos m + q)
                    + fexp prec emax (Z.pos (digits2_pos m) + 0))
                 - fexp prec emax (Z.pos (digits2_pos m) + 0) = 0).
    { unfold fexp, emin, prec, emax. lia. }
    rewrite Hf in *. rewrite Hz.
    cbn [shr_record_of_loc shr shr_m loc_of_shr_record
         round_nearest_even Zdigits2].
    rewrite digits2_pos_iter_xO, Hz. cbn [shr shr_m].
    replace (Z.pos (digits2_pos m) - 53 <=? emax - prec) with true; [eauto|].
    symmetry. apply Z.leb_le. unfold emax, prec. lia.
Qed.

Lemma float_of_int_returns (z : Z) :
  Z.abs z < 2 ^ 1023 -> exists f, float_of_int z = Ok f.
Proof.
  intros H. unfold float_of_int, binary_normalize.
  destruct z as [|m|m].
  - eauto.
  - destruct (binary_round_finite m false H) as (m' & e' & ->). eauto.
  - destruct (binary_round_finite m true H) as (m' & e' & ->). eauto.
Qed.

End FloatRange.

Section ScalefactorRange.
Import TerrainMetadata TerrainText History HistoryMore.

(** X18: [set_scalefactor] with an integer of magnitude below [2^1023]
    returns; with an integer of magnitude [2^1024] or more it raises
    [OverflowError] and leaves the object unchanged. *)
Theorem set_scalefactor_int_range (z : Z) (self : t) :
  (Z.abs z < 2 ^ 1023 -> fst (set_scalefactor (Int z) self) = Ok tt)
  /\ (2 ^ 1024 <= Z.abs z ->
      set_scalefactor (Int z) self
      = (Raise (OverflowError "int too large to convert to float"), self)).
Proof.
  unfold set_scalefactor, mbind, method_bind, lift. simpl. split; intros H.
  - destruct (float_of_int_returns z H) as [f ->]. reflexivity.
  - now rewrite float_of_int_raises.
Qed.

Lemma set_scalefactor_int_range_witness :
  (Z.abs (-3) < 2 ^ 1023
   /\ fst (set_scalefactor (Int (-3)) (init "out" "grass.terrain")) = Ok tt)
  /\ (2 ^ 1024 <= Z.abs (10 ^ 400)
      /\ set_scalefactor (Int (10 ^ 400)) (init "out" "grass.terrain")
         = (Raise (OverflowError "int too large to convert to float"),
            init "out" "grass.terrain")).
Proof.
  split; split.
  - vm_compute. reflexivity.
  - apply (proj1 (set_scalefactor_int_range (-3)
                    (init "out" "grass.terrain"))).
    vm_compute. reflexivity.
  - vm_compute. discriminate.
  - apply (proj2 (set_scalefactor_int_range (10 ^ 400)
                    (init "out" "grass.terrain"))).
    vm_compute. discriminate.
Defined.

Lemma set_scalefactor_effect_witness :
  fst (set_scalefactor (Int (2 ^ 1024)) (init "out" "grass.terrain"))
    = Raise (OverflowError "int too large to convert to float")
  /\ snd (set_scalefactor (Int (2 ^ 1024)) (init "out" "grass.terrain"))
     = init "out" "grass.terrain".
Proof.
  assert (H : fst (set_scalefactor (Int (2 ^ 1024))
                     (init "out" "grass.terrain"))
              = Raise (OverflowError "int too large to convert to float"))
    by (vm_compute; reflexivity).
  split; [exact H|].
  destruct (set_scalefactor_effect (Int (2 ^ 1024))
              (init "out" "grass.terrain"))
    as (_ & _ & _ & _ & _ & _ & _ & _ & He).
  exact (proj1 (He _ H)).
Defined.

Lemma falsy_attributes_as_unset_witness :
  number_truthy (Float (S754_zero true)) = false
  /\ dump_layer ""
       {| Layer.layer_id := 1; Layer.mode := Some OFF;
          Layer.position := Some 0;
          Layer.time_per_frame := Some (Float (S754_zero true));
          Layer.replay_delay := Some (Int 0) |}
     = dump_layer ""
         {| Layer.layer_id := 1; Layer.mode := Some OFF;
            Layer.position := None; Layer.time_per_frame := None;
            Layer.replay_delay := None |}.
Proof.
  split.
  - apply (proj2 (falsy_attributes_as_unset
                    {| Layer.layer_id := 1; Layer.mode := None;
                       Layer.position := None; Layer.time_per_frame := None;
                       Layer.replay_delay := None |})).
    right. now exists true.
  - exact (proj1 (falsy_attributes_as_unset
                    {| Layer.layer_id := 1; Layer.mode := Some OFF;
                       Layer.position := Some 0;
                       Layer.time_per_frame := Some (Float (S754_zero true));
                       Layer.replay_delay := Some (Int 0) |}) "").
Defined.

End ScalefactorRange.
